(** * The financial time-series loader of [Projects/Predict_hpi/predict]

    A shallow embedding of [data.py] and [data_keys.py]: the key registry,
    the file loaders, the daily resampler, the metric enrichers, the two
    assemblers, [common_period] and the intraday download/load path.

    Conventions of the embedding.
    - A time stamp is an integer ordinal ([Z]); for the daily files the unit
      is one calendar day.
    - A cell is [option Q]: [None] is pandas' NaN, [Some q] a number.  Numbers
      are exact rationals; the rounding of binary floating point is not
      modelled.
    - A Python exception is a constructor of [exn]; a call that may raise
      returns [result A]; a function that mutates an object in place is a
      state transformer [M S A] whose state survives a raise.
    - Global names of the module are resolved at run time in a namespace
      (a finite map from names to string constants), as Python does. *)

From Stdlib Require Import ZArith QArith List Ascii String Lia.
From stdpp Require Import gmap strings list sorting pretty.

Local Open Scope string_scope.

(** ** Exceptions and results *)

Inductive exn : Type :=
| NameError (name : string)
| AttributeError (attr : string)
| FileNotFoundError (path : string)
| ParserError (path : string)
| KeyError (key : string)
| ValueError (msg : string)
| IndexError
| AssertionError (msg : string).

Inductive result (A : Type) : Type :=
| Ok (a : A)
| Raise (e : exn).
Arguments Ok {A} a.
Arguments Raise {A} e.

#[global] Instance result_ret : MRet result := fun A a => Ok a.
#[global] Instance result_bind : MBind result := fun A B f r =>
  match r with
  | Ok a => f a
  | Raise e => Raise e
  end.

Definition is_raise {A} (r : result A) : bool :=
  match r with Ok _ => false | Raise _ => true end.

(** State and exceptions: the state is kept when the computation raises,
    as a Python object keeps the mutations made before an exception. *)
Definition M (S A : Type) : Type := S -> S * result A.

#[global] Instance M_ret {S} : MRet (M S) := fun A a s => (s, Ok a).
#[global] Instance M_bind {S} : MBind (M S) := fun A B f m s =>
  match m s with
  | (s', Ok a) => f a s'
  | (s', Raise e) => (s', Raise e)
  end.

Definition lift {S A} (r : result A) : M S A := fun s => (s, r).
Definition get {S} : M S S := fun s => (s, Ok s).
Definition when {S} (b : bool) (m : M S unit) : M S unit :=
  if b then m else mret tt.

(** ** Name resolution *)

(** [from data_keys import *] puts the registry's names in the module's
    namespace; a name that is not bound raises [NameError] when it is
    evaluated. *)
Definition global (G : gmap string string) (name : string) : result string :=
  match G !! name with
  | Some v => Ok v
  | None => Raise (NameError name)
  end.

(** ** Tables *)

Definition value : Type := option Q.

Record DataFrame : Type := mkDataFrame {
  index : list Z;
  columns : list (string * list value)
}.

Definition labels (df : DataFrame) : list string := (columns df).*1.

Definition has_label (k : string) (cols : list (string * list value)) : bool :=
  existsb (fun kc => bool_decide (kc.1 = k)) cols.

(** [df[k]]: the column labelled [k]. *)
Definition getitem (df : DataFrame) (k : string) : result (list value) :=
  match List.find (fun kc => bool_decide (kc.1 = k)) (columns df) with
  | Some kc => Ok kc.2
  | None => Raise (KeyError k)
  end.

(** [df[k] = col]: replaces the column(s) labelled [k] where they stand,
    or appends a new last column. *)
Definition setitem (df : DataFrame) (k : string) (col : list value) : DataFrame :=
  {| index := index df;
     columns :=
       if has_label k (columns df)
       then List.map (fun kc => if bool_decide (kc.1 = k) then (kc.1, col) else kc)
                     (columns df)
       else columns df ++ [(k, col)] |}.

(** The value a labelled series holds at a time stamp (first match). *)
Fixpoint at_stamp (idx : list Z) (col : list value) (d : Z) : value :=
  match idx, col with
  | i :: idx', v :: col' => if bool_decide (i = d) then v else at_stamp idx' col' d
  | _, _ => None
  end.

(** Alignment of a column on another index; stamps that the source does
    not have become NaN. *)
Definition reindex (idx : list Z) (col : list value) (new_idx : list Z) : list value :=
  List.map (at_stamp idx col) new_idx.

(** [df[k] = frame]: pandas accepts a frame with exactly one column and
    aligns it on the index of [df]. *)
Definition setitem_frame (df : DataFrame) (k : string) (v : DataFrame) : result DataFrame :=
  match columns v with
  | [(_, c)] => Ok (setitem df k (reindex (index v) c (index df)))
  | _ => Raise (ValueError "Cannot set a DataFrame with multiple columns to a single column")
  end.

(** Elementwise division of two aligned columns.  NaN propagates; a zero
    divisor gives no finite number. *)
Definition div_value (a b : value) : value :=
  match a, b with
  | Some x, Some y => if Qeq_bool y 0 then None else Some (x / y)%Q
  | _, _ => None
  end.

Fixpoint div_columns (a b : list value) : list value :=
  match a, b with
  | x :: a', y :: b' => div_value x y :: div_columns a' b'
  | _, _ => []
  end.

(** [fillna(method='pad')]. *)
Fixpoint pad (last : value) (col : list value) : list value :=
  match col with
  | [] => []
  | Some x :: col' => Some x :: pad (Some x) col'
  | None :: col' => last :: pad last col'
  end.

(** [pct_change(periods=n)]: the padded column divided by itself shifted
    by [n] rows, minus one. *)
Definition pct_change (periods : nat) (col : list value) : list value :=
  let filled := pad None col in
  let shifted := firstn (length col) (replicate periods None ++ filled) in
  List.map (fun v => match v with Some q => Some (q - 1)%Q | None => None end)
           (div_columns filled shifted).

(** Rows selected by a mask. *)
Fixpoint keep_rows {A} (mask : list bool) (l : list A) : list A :=
  match mask, l with
  | b :: mask', x :: l' => if b then x :: keep_rows mask' l' else keep_rows mask' l'
  | _, _ => []
  end.

(** [df.dropna(subset=[k])]: keeps the rows whose cell under [k] is a number. *)
Definition dropna (df : DataFrame) (k : string) : result DataFrame :=
  col ← getitem df k;
  let mask := List.map (fun v : value => bool_decide (is_Some v)) col in
  Ok {| index := keep_rows mask (index df);
        columns := List.map (fun kc => (kc.1, keep_rows mask kc.2)) (columns df) |}.

(** [df.rename(columns=mapping)]. *)
Definition rename (mapping : list (string * string)) (df : DataFrame) : DataFrame :=
  {| index := index df;
     columns :=
       List.map (fun kc =>
                   match List.find (fun ab => bool_decide (ab.1 = kc.1)) mapping with
                   | Some ab => (ab.2, kc.2)
                   | None => kc
                   end) (columns df) |}.

(** [df[[k1, k2, ...]]]: the columns under the requested labels, in the
    requested order; a label without a column raises [KeyError]. *)
Fixpoint select_columns (cols : list (string * list value)) (ks : list string)
  : result (list (string * list value)) :=
  match ks with
  | [] => Ok []
  | k :: ks' =>
      match List.filter (fun kc => bool_decide (kc.1 = k)) cols with
      | [] => Raise (KeyError k)
      | found => rest ← select_columns cols ks'; Ok (found ++ rest)%list
      end
  end.

Definition select (df : DataFrame) (ks : list string) : result DataFrame :=
  cols ← select_columns (columns df) ks;
  Ok {| index := index df; columns := cols |}.

(** ** The daily resampler *)

(** [n] consecutive days from [lo] on. *)
Definition calendar (lo : Z) (n : nat) : list Z :=
  List.map (fun i => (lo + Z.of_nat i)%Z) (seq 0 n).

(** The calendar from [lo] to [hi], one stamp per day. *)
Definition date_range (lo hi : Z) : list Z :=
  calendar lo (Z.to_nat (hi - lo + 1)).

(** Distance to, and value of, the next number of a column. *)
Fixpoint next_valid (col : list value) : option (nat * Q) :=
  match col with
  | [] => None
  | Some w :: _ => Some (1%nat, w)
  | None :: col' =>
      match next_valid col' with
      | Some (k, w) => Some (S k, w)
      | None => None
      end
  end.

(** [interpolate(method='linear')] on equally spaced rows.  [prev] is the
    last number seen and the distance from it.  A NaN between two numbers
    lies on the line through them; NaNs before the first number stay;
    NaNs after the last number take its value (pandas' forward limit
    direction). *)
Fixpoint interpolate_from (prev : option (Q * nat)) (col : list value) : list value :=
  match col with
  | [] => []
  | Some v :: col' => Some v :: interpolate_from (Some (v, 1%nat)) col'
  | None :: col' =>
      match prev with
      | None => None :: interpolate_from None col'
      | Some (p, j) =>
          match next_valid col' with
          | Some (k, w) =>
              Some (p + (w - p) * (inject_Z (Z.of_nat j) / inject_Z (Z.of_nat (j + k))))%Q
          | None => Some p
          end :: interpolate_from (Some (p, S j)) col'
      end
  end.

Definition interpolate (col : list value) : list value := interpolate_from None col.

(** [data.resample('D').interpolate(method='linear')]: the rows are put on
    the calendar from the earliest to the latest stamp, then every column is
    interpolated.  pandas refuses to reindex an axis with duplicate labels. *)
Definition _resample_daily (data : DataFrame) : result DataFrame :=
  match index data with
  | [] => Ok data
  | d0 :: rest =>
      if bool_decide (NoDup (index data)) then
        let days := date_range (fold_right Z.min d0 rest) (fold_right Z.max d0 rest) in
        Ok {| index := days;
              columns :=
                List.map (fun kc => (kc.1, interpolate (reindex (index data) kc.2 days)))
                         (columns data) |}
      else Raise (ValueError "cannot reindex on an axis with duplicate labels")
  end.

(** ** The key registry: [data_keys.py] *)

(** Every name the module binds, with its value, in source order. *)
Definition data_keys_bindings : list (string * string) :=
  [ ("DATE", "Date");
    ("DATE_TIME", "Date and Time");
    ("HP", "HP");
    ("RATIO_EXACT", "Dollar / Earnings");
    ("HPI", "HPI");
    ("HPI_REAL", "HPI (Real)");
    ("EARNINGS", "Earnings");
    ("EARNINGS_REAL", "Earnings (Real)");
    ("EARNINGS_GROWTH", "Earnings Growth");
    ("EARNINGS_GROWTH_REAL", "Earnings Growth (Real)");
    ("RATIO", "HPI/Earnings");
    ("RATIO_MF", "MF x HPI/Earnings");
    ("ANN_RETURN", "Ann. Return");
    ("ANN_RETURN_REAL", "Ann. Return (Real)");
    ("MORTGAGE_RATE", "Mortgage Rate 30-Year");
    ("MORTGAGE_FACTOR", "Mortgage Factor");
    ("MEAN_ANN_RETURN", "Mean Ann. Return");
    ("STD_ANN_RETURN", "Std. Ann. Return");
    ("BOND_YIELD", "Bond Yield");
    ("CPI", "CPI") ].

(** The namespace that [from data_keys import *] gives [data.py]. *)
Definition data_keys : gmap string string := list_to_map data_keys_bindings.

(** The column-key names that [data.py] evaluates, in order of first use. *)
Definition referenced_keys : list string :=
  [ "TOTAL_RETURN"; "SHARE_PRICE";
    "EARNINGS_PER_SHARE"; "PE"; "PROFIT_MARGIN";
    "SALES_PER_SHARE"; "PSALES"; "SALES_GROWTH";
    "BOOK_VALUE_PER_SHARE"; "PBOOK";
    "DIVIDEND_TTM"; "PDIVIDEND"; "DIVIDEND_YIELD";
    "CPI"; "DATE_TIME"; "OPEN"; "CLOSE"; "HIGH"; "LOW"; "VOLUME" ].

Definition unbound_keys (G : gmap string string) : list string :=
  List.filter (fun name => bool_decide (G !! name = None)) referenced_keys.

(** ** Paths *)

Definition ends_with_slash (a : string) : bool :=
  match String.get (String.length a - 1) a with
  | Some c => bool_decide (c = "/"%char)
  | None => false
  end.

(** [os.path.join a b] on a POSIX system. *)
Definition os_path_join (a b : string) : string :=
  if String.prefix "/" b then b
  else if bool_decide (a = "") then b
  else if ends_with_slash a then a +:+ b
  else a +:+ "/" +:+ b.

Definition data_dir : string := "data/".
Definition data_dir_intraday : string := os_path_join data_dir "intraday/".

(** ** The file system as pandas' reader sees it *)

(** What [pd.read_csv] makes of a file under the options of the call:
    a table, or a failure of the parser. *)
Inductive file : Type :=
| Malformed
| Table (t : DataFrame).

Definition read_csv (fs : gmap string file) (path : string) : result DataFrame :=
  match fs !! path with
  | None => Raise (FileNotFoundError path)
  | Some Malformed => Raise (ParserError path)
  | Some (Table t) => Ok t
  end.

(** [pd.concat([a, b], axis=1)]: outer join on the sorted union of the two
    indexes. *)
Definition concat_columns (a b : DataFrame) : result DataFrame :=
  if bool_decide (NoDup (index a) ∧ NoDup (index b)) then
    let idx := merge_sort Z.le (remove_dups (index a ++ index b)) in
    let align (df : DataFrame) :=
      List.map (fun kc => (kc.1, reindex (index df) kc.2 idx)) (columns df) in
    Ok {| index := idx; columns := align a ++ align b |}
  else Raise (ValueError "cannot reindex on an axis with duplicate labels").

(** In-place operations on the table under construction. *)
Definition assign (k : string) (col : list value) : M DataFrame unit :=
  fun df => (setitem df k col, Ok tt).

Definition assign_frame (k : string) (v : DataFrame) : M DataFrame unit :=
  fun df =>
    match setitem_frame df k v with
    | Ok df' => (df', Ok tt)
    | Raise e => (df, Raise e)
    end.

Definition column (k : string) : M DataFrame (list value) :=
  fun df => (df, getitem df k).

Section Loader.

(** The module's namespace and the files under [data_dir]. *)
Variable G : gmap string string.
Variable fs : gmap string file.

(** ** File loaders *)

Definition _load_data (path : string) : result DataFrame := read_csv fs path.

Definition _load_price_yahoo (ticker : string) : result DataFrame :=
  let path := os_path_join data_dir (ticker +:+ " Share-Price (Yahoo).csv") in
  price_raw ← read_csv fs path;
  total_return ← global G "TOTAL_RETURN";
  share_price ← global G "SHARE_PRICE";
  let price := rename [("Adj Close", total_return); ("Close", share_price)] price_raw in
  k1 ← global G "TOTAL_RETURN";
  k2 ← global G "SHARE_PRICE";
  price ← select price [k1; k2];
  _resample_daily price.

(** ** Metric enrichers *)

(** [df[target] = df[num] / df[den]], names evaluated right-hand side
    first. *)
Definition assign_ratio (target num den : string) : M DataFrame unit :=
  kn ← lift (global G num);
  a ← column kn;
  kd ← lift (global G den);
  b ← column kd;
  kt ← lift (global G target);
  assign kt (div_columns a b).

(** [df[target] = _resample_daily(loaded)]. *)
Definition assign_daily (target : string) (loaded : DataFrame) : M DataFrame unit :=
  daily ← lift (_resample_daily loaded);
  kt ← lift (global G target);
  assign_frame kt daily.

Definition _load_earnings_per_share (ticker : string) (profit_margin : bool)
  : M DataFrame unit :=
  let path := os_path_join data_dir (ticker +:+ " Earnings Per Share.txt") in
  earnings_per_share ← lift (_load_data path);
  _ ← assign_daily "EARNINGS_PER_SHARE" earnings_per_share;
  _ ← assign_ratio "PE" "SHARE_PRICE" "EARNINGS_PER_SHARE";
  when profit_margin
       (assign_ratio "PROFIT_MARGIN" "EARNINGS_PER_SHARE" "SALES_PER_SHARE").

Definition _load_sales_per_share (ticker : string) : M DataFrame unit :=
  let path := os_path_join data_dir (ticker +:+ " Sales Per Share.txt") in
  sales_per_share ← lift (_load_data path);
  _ ← assign_daily "SALES_PER_SHARE" sales_per_share;
  _ ← assign_ratio "PSALES" "SHARE_PRICE" "SALES_PER_SHARE";
  ks ← lift (global G "SALES_PER_SHARE");
  s ← column ks;
  kg ← lift (global G "SALES_GROWTH");
  assign kg (pct_change 365 s).

Definition _load_book_value_per_share (ticker : string) : M DataFrame unit :=
  let path := os_path_join data_dir (ticker +:+ " Book-Value Per Share.txt") in
  book_value_per_share ← lift (_load_data path);
  _ ← assign_daily "BOOK_VALUE_PER_SHARE" book_value_per_share;
  assign_ratio "PBOOK" "SHARE_PRICE" "BOOK_VALUE_PER_SHARE".

Definition _load_dividend_TTM (ticker : string) : M DataFrame unit :=
  let path := os_path_join data_dir (ticker +:+ " Dividend Per Share TTM.txt") in
  dividend_per_share_TTM ← lift (_load_data path);
  _ ← assign_daily "DIVIDEND_TTM" dividend_per_share_TTM;
  _ ← assign_ratio "PDIVIDEND" "SHARE_PRICE" "DIVIDEND_TTM";
  assign_ratio "DIVIDEND_YIELD" "DIVIDEND_TTM" "SHARE_PRICE".

(** Runs the enrichers on a table and hands the table back when none of
    them raised. *)
Definition enriched (m : M DataFrame unit) (df : DataFrame) : result DataFrame :=
  match m df with
  | (df', Ok _) => Ok df'
  | (_, Raise e) => Raise e
  end.

(** ** Assemblers *)

(** [returns.total_return(df=df)]: [returns] is looked up in the module's
    namespace, which holds string constants only; a string has no
    attribute [total_return]. *)
Definition returns_total_return (df : DataFrame) : result (list value) :=
  _ ← global G "returns";
  Raise (AttributeError "total_return").

Definition load_index_data (ticker : string) (sales book_value dividend_TTM : bool)
  : result DataFrame :=
  price_daily ← _load_price_yahoo ticker;
  let path := os_path_join data_dir (ticker +:+ " Dividend Per Share.txt") in
  dividend_per_share ← _load_data path;
  df ← concat_columns price_daily dividend_per_share;
  k ← global G "SHARE_PRICE";
  df ← dropna df k;
  tr ← returns_total_return df;
  kt ← global G "TOTAL_RETURN";
  enriched
    (_ ← when sales (_load_sales_per_share ticker);
     _ ← when book_value (_load_book_value_per_share ticker);
     when dividend_TTM (_load_dividend_TTM ticker))
    (setitem df kt tr).

Definition load_stock_data (ticker : string)
           (earnings sales book_value dividend_TTM : bool) : result DataFrame :=
  price_daily ← _load_price_yahoo ticker;
  k ← global G "SHARE_PRICE";
  df ← dropna price_daily k;
  enriched
    (_ ← when sales (_load_sales_per_share ticker);
     _ ← when earnings (_load_earnings_per_share ticker true);
     _ ← when book_value (_load_book_value_per_share ticker);
     when dividend_TTM (_load_dividend_TTM ticker))
    df.

End Loader.

(** ** The common period of several tables *)

(** [df.index[0]] and [df.index[-1]]. *)
Definition first_stamp (df : DataFrame) : result Z :=
  match index df with
  | d :: _ => Ok d
  | [] => Raise IndexError
  end.

Definition last_stamp (df : DataFrame) : result Z :=
  match last (index df) with
  | Some d => Ok d
  | None => Raise IndexError
  end.

(** A list comprehension whose element expression may raise. *)
Fixpoint comprehension {A B} (f : A -> result B) (l : list A) : result (list B) :=
  match l with
  | [] => Ok []
  | x :: l' => y ← f x; ys ← comprehension f l'; Ok (y :: ys)
  end.

(** [np.max] and [np.min] of a list of stamps; numpy refuses an empty one. *)
Definition np_max (l : list Z) : result Z :=
  match l with
  | [] => Raise (ValueError "zero-size array to reduction operation maximum which has no identity")
  | x :: l' => Ok (fold_left Z.max l' x)
  end.

Definition np_min (l : list Z) : result Z :=
  match l with
  | [] => Raise (ValueError "zero-size array to reduction operation minimum which has no identity")
  | x :: l' => Ok (fold_left Z.min l' x)
  end.

(** The tables are passed by reference: the state of the computation is
    the list of table objects the caller handed over. *)
Definition common_period : M (list DataFrame) (Z * Z) :=
  dfs ← get;
  start_dates ← lift (comprehension first_stamp dfs);
  end_dates ← lift (comprehension last_stamp dfs);
  common_start_date ← lift (np_max start_dates);
  common_end_date ← lift (np_min end_dates);
  mret (common_start_date, common_end_date).

(** The day number of a civil date (days since 1970-01-01, proleptic
    Gregorian calendar), the ordinal of a pandas time stamp at midnight. *)
Definition days_from_civil (y m d : Z) : Z :=
  let y' := if (m <=? 2)%Z then (y - 1)%Z else y in
  let era := (y' / 400)%Z in
  let yoe := (y' - era * 400)%Z in
  let mp := if (m >? 2)%Z then (m - 3)%Z else (m + 9)%Z in
  let doy := ((153 * mp + 2) / 5 + d - 1)%Z in
  let doe := (yoe * 365 + yoe / 4 - yoe / 100 + doy)%Z in
  (era * 146097 + doe - 719468)%Z.

(** ** Intraday share prices *)

(** [tickers]: a list of strings, or just a single string. *)
Inductive tickers_arg : Type :=
| Single (ticker : string)
| Several (tickers : list string).

(** [if not isinstance(tickers, list): tickers = [tickers]]. *)
Definition as_list (tickers : tickers_arg) : list string :=
  match tickers with
  | Single t => [t]
  | Several ts => ts
  end.

Definition _path_shareprices_intraday (ticker interval : string) : string :=
  let filename :=
    ticker +:+ " Share-Price Intraday " +:+ interval +:+ " (AlphaVantage).csv" in
  os_path_join data_dir_intraday filename.

(** [d[k] = v] on a Python dict: a present key keeps its place. *)
Fixpoint dict_set {V} (d : list (string * V)) (k : string) (v : V) : list (string * V) :=
  match d with
  | [] => [(k, v)]
  | (k', v') :: d' =>
      if bool_decide (k' = k) then (k', v) :: d' else (k', v') :: dict_set d' k v
  end.

(** [pd.concat(df_dict, keys=df_dict.keys(), axis=0)]: the result has one
    block of rows per key, each row indexed by the key and its own stamp;
    it is represented by the list of its blocks.  pandas refuses to
    concatenate nothing. *)
Definition concat_rows (df_dict : list (string * DataFrame))
  : result (list (string * DataFrame)) :=
  match df_dict with
  | [] => Raise (ValueError "No objects to concatenate")
  | _ => Ok df_dict
  end.

Section Intraday.

Variable G : gmap string string.
Variable fs : gmap string file.

(** The body of the [try] block for one ticker. *)
Definition load_one_intraday (ticker interval : string) : result DataFrame :=
  let path := _path_shareprices_intraday ticker interval in
  df ← read_csv fs path;
  _ ← global G "DATE_TIME";
  open ← global G "OPEN";
  close ← global G "CLOSE";
  high ← global G "HIGH";
  low ← global G "LOW";
  volume ← global G "VOLUME";
  Ok (rename [("open", open); ("close", close); ("high", high);
              ("low", low); ("volume", volume)] df).

(** The loop over the tickers; [except: pass] skips a ticker on any
    exception. *)
Fixpoint load_all_intraday (tickers : list string) (interval : string)
         (df_dict : list (string * DataFrame)) : list (string * DataFrame) :=
  match tickers with
  | [] => df_dict
  | ticker :: tickers' =>
      match load_one_intraday ticker interval with
      | Ok df => load_all_intraday tickers' interval (dict_set df_dict ticker df)
      | Raise _ => load_all_intraday tickers' interval df_dict
      end
  end.

Definition load_shareprices_intraday (tickers : tickers_arg) (interval : string)
  : result (list (string * DataFrame)) :=
  concat_rows (load_all_intraday (as_list tickers) interval []).

End Intraday.

(** ** Downloading from Alpha Vantage *)

(** What the download path reads and changes: the module-level API key,
    the data files and directories, the requests sent, the lines printed
    and the seconds slept. *)
Record world : Type := mkWorld {
  _api_key_av : option string;
  files : gmap string file;
  directories : gset string;
  key_files : gmap string string;
  requested : list string;
  printed : list string;
  slept : list Z
}.

Record response : Type := mkResponse {
  status_code : Z;
  content : file
}.

(** The module as imported: [_api_key_av = None]. *)
Definition imported (fs : gmap string file) (dirs : gset string)
           (keys : gmap string string) : world :=
  {| _api_key_av := None; files := fs; directories := dirs; key_files := keys;
     requested := []; printed := []; slept := [] |}.

Definition set_api_key_av (api_key : string) : M world unit :=
  fun w =>
    ({| _api_key_av := Some api_key; files := files w; directories := directories w;
        key_files := key_files w; requested := requested w; printed := printed w;
        slept := slept w |}, Ok tt).

Definition is_space (c : ascii) : bool :=
  bool_decide (c = " "%char) || bool_decide (c = "009"%char)
  || bool_decide (c = "010"%char) || bool_decide (c = "013"%char).

Fixpoint lstrip (s : string) : string :=
  match s with
  | String c s' => if is_space c then lstrip s' else s
  | EmptyString => EmptyString
  end.

(** [str.strip()]. *)
Definition strip (s : string) : string :=
  String.rev (lstrip (String.rev (lstrip s))).

Section Download.

(** The user's home directory and the answers of the web server. *)
Variable home : string.
Variable web : string -> response.

(** [os.path.expanduser] for a path that begins with [~/]. *)
Definition expanduser (path : string) : string :=
  match path with
  | String "~"%char (String "/"%char rest) => home +:+ "/" +:+ rest
  | _ => path
  end.

(** [key_files] gives the first line of each readable text file. *)
Definition load_api_key_av (path : string) : M world unit :=
  let path := expanduser path in
  w ← get;
  match key_files w !! path with
  | None => lift (Raise (FileNotFoundError path))
  | Some line => set_api_key_av (strip line)
  end.

Definition print (msg : string) : M world unit :=
  fun w =>
    ({| _api_key_av := _api_key_av w; files := files w; directories := directories w;
        key_files := key_files w; requested := requested w;
        printed := printed w ++ [msg]; slept := slept w |}, Ok tt).

Definition makedirs (dir : string) : M world unit :=
  fun w =>
    ({| _api_key_av := _api_key_av w; files := files w;
        directories := {[ dir ]} ∪ directories w;
        key_files := key_files w; requested := requested w;
        printed := printed w; slept := slept w |}, Ok tt).

Definition requests_get (url : string) : M world response :=
  fun w =>
    ({| _api_key_av := _api_key_av w; files := files w; directories := directories w;
        key_files := key_files w; requested := requested w ++ [url];
        printed := printed w; slept := slept w |}, Ok (web url)).

Definition write_file (path : string) (c : file) : M world unit :=
  fun w =>
    ({| _api_key_av := _api_key_av w; files := <[ path := c ]> (files w);
        directories := directories w; key_files := key_files w;
        requested := requested w; printed := printed w; slept := slept w |}, Ok tt).

Definition time_sleep (seconds : Z) : M world unit :=
  fun w =>
    ({| _api_key_av := _api_key_av w; files := files w; directories := directories w;
        key_files := key_files w; requested := requested w; printed := printed w;
        slept := slept w ++ [seconds] |}, Ok tt).

(** The body of the loop for the ticker at position [i]. *)
Definition download_one (key interval : string) (sleep : bool) (num_tickers : Z)
           (i : Z) (ticker : string) : M world unit :=
  _ ← print ("- Downloading " +:+ interval +:+ " share-prices for " +:+ ticker +:+ " ... ");
  let url :=
    "https://www.alphavantage.co/query?function=TIME_SERIES_INTRADAY&symbol="
    +:+ ticker +:+ "&interval=" +:+ interval
    +:+ "&adjusted=True&outputsize=full&datatype=csv&apikey=" +:+ key in
  let path := _path_shareprices_intraday ticker interval in
  response ← requests_get url;
  _ ← (if bool_decide (status_code response = 200%Z)
       then _ ← write_file path (content response); print "Done!"
       else print ("Error " +:+ pretty (status_code response)));
  when (sleep && bool_decide (i < num_tickers - 1)%Z) (time_sleep 13).

Fixpoint download_loop (key interval : string) (sleep : bool) (num_tickers : Z)
         (i : Z) (tickers : list string) : M world unit :=
  match tickers with
  | [] => mret tt
  | ticker :: tickers' =>
      _ ← download_one key interval sleep num_tickers i ticker;
      download_loop key interval sleep num_tickers (i + 1)%Z tickers'
  end.

Definition download_shareprices_intraday (tickers : tickers_arg) (interval : string)
           (sleep : bool) : M world unit :=
  w ← get;
  match _api_key_av w with
  | None => lift (Raise (AssertionError "You need to set an API key for Alpha Vantage"))
  | Some key =>
      let tickers := as_list tickers in
      let num_tickers := Z.of_nat (length tickers) in
      _ ← when (negb (bool_decide (data_dir_intraday ∈ directories w)))
               (makedirs data_dir_intraday);
      download_loop key interval sleep num_tickers 0%Z tickers
  end.

End Download.

(** ** Frames of in-place updates *)

(** [frame W df df']: [df'] has the index of [df], every label of [df],
    at least as many columns, and under every label outside [W] the
    column that [df] has there. *)
Definition frame (W : string -> Prop) (df df' : DataFrame) : Prop :=
  index df' = index df /\
  (forall k, In k (labels df) -> In k (labels df')) /\
  (length (columns df) <= length (columns df'))%nat /\
  (forall k, ~ W k -> getitem df' k = getitem df k).

(** A computation keeps [R] when the table it leaves behind, whether it
    returns or raises, is related by [R] to the table it was given. *)
Definition keeps {A} (R : DataFrame -> DataFrame -> Prop) (m : M DataFrame A) : Prop :=
  forall df, R df (m df).1.

(** The labels to which a namespace binds the given names. *)
Definition bound_to (G : gmap string string) (names : list string) (k : string) : Prop :=
  exists name, In name names /\ G !! name = Some k.

(** Scanning state of the interpolation after a prefix of a column. *)
Fixpoint scan_state (prev : option (Q * nat)) (col : list value) : option (Q * nat) :=
  match col with
  | [] => prev
  | Some v :: col' => scan_state (Some (v, 1%nat)) col'
  | None :: col' =>
      scan_state (match prev with Some (p, j) => Some (p, S j) | None => None end) col'
  end.

Definition book_value_keys : list string := ["BOOK_VALUE_PER_SHARE"; "PBOOK"].
Definition dividend_keys : list string := ["DIVIDEND_TTM"; "PDIVIDEND"; "DIVIDEND_YIELD"].


(** The outcome that the initial assertion of the download produces. *)
Definition fails_assertion {A} (r : result A) : bool :=
  match r with
  | Raise (AssertionError _) => true
  | _ => false
  end.

(** The label that a rename mapping gives to a column labelled [l]. *)
Definition renamed_label (mapping : list (string * string)) (l : string) : string :=
  match List.find (fun ab => bool_decide (ab.1 = l)) mapping with
  | Some ab => ab.2
  | None => l
  end.


(** ** Data for the examples *)

(** The path of a per-ticker file under [data_dir]. *)
Definition data_file (ticker suffix : string) : string :=
  os_path_join data_dir (ticker +:+ suffix).

(** A namespace that binds, besides the registry's names, the column keys
    that [data.py] evaluates, each to a label of its own. *)
Definition completed_keys : gmap string string :=
  list_to_map
    (data_keys_bindings ++
     [ ("TOTAL_RETURN", "Total Return");
       ("SHARE_PRICE", "Share-price");
       ("EARNINGS_PER_SHARE", "Earnings Per Share");
       ("PE", "P/E");
       ("PROFIT_MARGIN", "Profit Margin");
       ("SALES_PER_SHARE", "Sales Per Share");
       ("PSALES", "P/Sales");
       ("SALES_GROWTH", "Sales Growth");
       ("BOOK_VALUE_PER_SHARE", "Book-Value Per Share");
       ("PBOOK", "P/Book");
       ("DIVIDEND_TTM", "Dividend TTM");
       ("PDIVIDEND", "P/Dividend");
       ("DIVIDEND_YIELD", "Dividend Yield");
       ("OPEN", "Open");
       ("CLOSE", "Close");
       ("HIGH", "High");
       ("LOW", "Low");
       ("VOLUME", "Volume") ]).

(** Well-formed files for the ticker WMT: four days of prices, and
    fundamentals at the first and the last of these days. *)
Definition wmt_prices : DataFrame :=
  {| index := [100; 101; 102; 103]%Z;
     columns :=
       [ ("Open", [Some 10%Q; Some 10%Q; Some 11%Q; Some 12%Q]);
         ("Close", [Some 10%Q; Some 11%Q; Some 12%Q; Some 12%Q]);
         ("Adj Close", [Some 9%Q; Some 10%Q; Some 11%Q; Some 11%Q]) ] |}.

Definition wmt_sales : DataFrame :=
  {| index := [100; 103]%Z; columns := [ ("Sales Per Share", [Some 4%Q; Some 7%Q]) ] |}.

Definition wmt_earnings : DataFrame :=
  {| index := [100; 103]%Z; columns := [ ("Earnings Per Share", [Some 1%Q; Some 2%Q]) ] |}.

Definition wmt_book_value : DataFrame :=
  {| index := [100; 103]%Z; columns := [ ("Book-Value Per Share", [Some 2%Q; Some 2%Q]) ] |}.

Definition wmt_dividend : DataFrame :=
  {| index := [100; 103]%Z; columns := [ ("Dividend Per Share", [Some (1 # 2)%Q; Some (1 # 2)%Q]) ] |}.

Definition wmt_intraday : DataFrame :=
  {| index := [0; 5]%Z;
     columns :=
       [ ("open", [Some 10%Q; Some 11%Q]); ("high", [Some 11%Q; Some 12%Q]);
         ("low", [Some 9%Q; Some 10%Q]); ("close", [Some 11%Q; Some 11%Q]);
         ("volume", [Some 500%Q; Some 300%Q]) ] |}.

Definition wmt_files : gmap string file :=
  list_to_map
    [ (data_file "WMT" " Share-Price (Yahoo).csv", Table wmt_prices);
      (data_file "WMT" " Sales Per Share.txt", Table wmt_sales);
      (data_file "WMT" " Earnings Per Share.txt", Table wmt_earnings);
      (data_file "WMT" " Book-Value Per Share.txt", Table wmt_book_value);
      (data_file "WMT" " Dividend Per Share.txt", Table wmt_dividend);
      (_path_shareprices_intraday "WMT" "5min", Table wmt_intraday) ].


(** A table seeded with a price column. *)
Definition seeded : DataFrame :=
  {| index := [100; 101; 102; 103]%Z;
     columns := [ ("Share-price", [Some 10%Q; Some 11%Q; Some 12%Q; Some 12%Q]) ] |}.

(** A web server that has data for WMT only, and a stored key. *)
Definition sample_web (url : string) : response :=
  if bool_decide
       (url = "https://www.alphavantage.co/query?function=TIME_SERIES_INTRADAY&symbol=WMT&interval=5min&adjusted=True&outputsize=full&datatype=csv&apikey=demo")
  then {| status_code := 200; content := Table wmt_intraday |}
  else {| status_code := 404; content := Malformed |}.

Definition sample_key_files : gmap string string :=
  {[ "/home/user/alphavantage_api_key.txt" := "  demo " ]}.

Definition fresh_world : world := imported wmt_files ∅ sample_key_files.

(** A table that already has one number per day, from day 10 to day 13. *)
Definition daily_fortnight : DataFrame :=
  {| index := date_range 10 13;
     columns := [ ("Sales Per Share", [Some 5%Q; Some (11 # 2)%Q; Some 6%Q; Some (13 # 2)%Q]);
                  ("Close", [Some 1%Q; Some 1%Q; Some 2%Q; Some 3%Q]) ] |}.

(** A source with a two-day gap between its first two rows. *)
Definition quarterly_pair : DataFrame :=
  {| index := [3; 5; 9]%Z;
     columns := [ ("Book-Value Per Share", [Some 4%Q; Some 7%Q; Some 8%Q]) ] |}.

(** Two tables spanning 2010-01-01 to 2015-01-01 and 2012-01-01 to
    2016-01-01, one row per day. *)
Definition table_2010_2015 : DataFrame :=
  {| index := date_range (days_from_civil 2010 1 1) (days_from_civil 2015 1 1);
     columns := [] |}.

Definition table_2012_2016 : DataFrame :=
  {| index := date_range (days_from_civil 2012 1 1) (days_from_civil 2016 1 1);
     columns := [] |}.


(** ** The public loaders without a ticker *)

(** [df.dropna()]: keeps the rows in which every column has a number. *)
Definition complete_row (cols : list (string * list value)) (i : nat) : bool :=
  forallb (fun kc : string * list value =>
             match kc.2 !! i with
             | Some (Some _) => true
             | _ => false
             end) cols.

Definition dropna_rows (df : DataFrame) : DataFrame :=
  let mask := List.map (complete_row (columns df)) (seq 0 (length (index df))) in
  {| index := keep_rows mask (index df);
     columns := List.map (fun kc => (kc.1, keep_rows mask kc.2)) (columns df) |}.

(** [df /= c]: every number is divided by [c]. *)
Definition divide_by (c : Q) (df : DataFrame) : DataFrame :=
  {| index := index df;
     columns :=
       List.map (fun kc : string * list value =>
                   (kc.1, List.map (fun v : value =>
                                      match v with
                                      | Some q => Some (q / c)%Q
                                      | None => None
                                      end) kc.2))
                (columns df) |}.

Definition load_usa_cpi (G : gmap string string) (fs : gmap string file) : result DataFrame :=
  let path := os_path_join data_dir "USA CPI.csv" in
  data ← read_csv fs path;
  cpi ← global G "CPI";
  let data := rename [("Value", cpi)] data in
  k ← global G "CPI";
  series ← select data [k];
  _resample_daily series.

Definition load_usa_gov_bond_1year (fs : gmap string file) : result DataFrame :=
  let path := os_path_join data_dir "USA Gov Bond Yield 1-Year.txt" in
  bond_yields ← _load_data fs path;
  let bond_yields := dropna_rows bond_yields in
  let bond_yields := divide_by 100 bond_yields in
  _resample_daily bond_yields.


(** ** The storage calculator: [StorageCalc.py] *)

(** Python's [//] and [%] round towards minus infinity, as [Z.div] and
    [Z.modulo] do for a positive divisor. *)
Definition calculate_storage (filesize : Z) : Z :=
  let block_size := 4096%Z in
  let full_blocks := (filesize / block_size)%Z in
  let partial_block_remainder := (filesize mod block_size)%Z in
  if (partial_block_remainder >? 0)%Z
  then (block_size * (full_blocks + 1))%Z
  else (full_blocks * block_size)%Z.

(** More data for the examples: bond yields with a missing value, and a
    consumer-price file. *)
Definition bond_yields_raw : DataFrame :=
  {| index := [10; 12; 13; 15]%Z;
     columns := [ ("Yield", [Some (7 # 2)%Q; None; Some 4%Q; Some 3%Q]) ] |}.

Definition cpi_raw : DataFrame :=
  {| index := [0; 2]%Z;
     columns := [ ("Series", [None; None]); ("Value", [Some 200%Q; Some 202%Q]) ] |}.

Definition macro_files : gmap string file :=
  list_to_map
    [ (os_path_join data_dir "USA Gov Bond Yield 1-Year.txt", Table bond_yields_raw);
      (os_path_join data_dir "USA CPI.csv", Table cpi_raw) ].



(** A table without rows, and a table that ends before [table_2012_2016]
    starts. *)
Definition table_without_rows : DataFrame := {| index := []; columns := [] |}.

Definition table_2010_2011 : DataFrame :=
  {| index := [days_from_civil 2010 1 1; days_from_civil 2011 1 1]; columns := [] |}.


Definition wmt_dividend_TTM : DataFrame :=
  {| index := [100; 103]%Z; columns := [ ("Dividend Per Share TTM", [Some 2%Q; Some 2%Q]) ] |}.

Definition wmt_prices_without_close : DataFrame :=
  {| index := [100; 101]%Z;
     columns := [ ("Open", [Some 10%Q; Some 10%Q]); ("Adj Close", [Some 9%Q; Some 10%Q]) ] |}.

Definition more_wmt_files : gmap string file :=
  <[ data_file "WMT" " Dividend Per Share TTM.txt" := Table wmt_dividend_TTM ]>
  (<[ data_file "XOM" " Share-Price (Yahoo).csv" := Table wmt_prices_without_close ]> wmt_files).


(* ================================================================== *)
(** * Properties *)

Example interpolate_gap :
  interpolate [None; Some 1%Q; None; None; Some 4%Q; None]
  = [None; Some 1%Q; Some (1 + (4 - 1) * (inject_Z 1 / inject_Z 3))%Q;
     Some (1 + (4 - 1) * (inject_Z 2 / inject_Z 3))%Q; Some 4%Q; Some 4%Q].
Proof. reflexivity. Qed.

(** ** The calendar *)

Lemma calendar_S lo n : calendar lo (S n) = lo :: calendar (lo + 1) n.
Proof.
  unfold calendar. cbn [seq List.map]. f_equal; [lia |].
  rewrite <- seq_shift, List.map_map. apply List.map_ext. intros i. lia.
Qed.

Lemma date_range_calendar lo hi : date_range lo hi = calendar lo (Z.to_nat (hi - lo + 1)).
Proof. reflexivity. Qed.

Lemma date_range_empty lo hi : (hi < lo)%Z -> date_range lo hi = [].
Proof.
  intros H. rewrite date_range_calendar.
  replace (Z.to_nat (hi - lo + 1)) with 0%nat by lia. reflexivity.
Qed.

Lemma date_range_cons lo hi : (lo <= hi)%Z -> date_range lo hi = lo :: date_range (lo + 1) hi.
Proof.
  intros H. rewrite !date_range_calendar.
  replace (Z.to_nat (hi - lo + 1)) with (S (Z.to_nat (hi - (lo + 1) + 1))) by lia.
  apply calendar_S.
Qed.

Lemma calendar_bounds lo n d : In d (calendar lo n) -> (lo <= d < lo + Z.of_nat n)%Z.
Proof.
  unfold calendar. rewrite in_map_iff. intros (i & <- & Hi).
  apply in_seq in Hi. lia.
Qed.

Lemma calendar_sorted lo n : StronglySorted Z.lt (calendar lo n).
Proof.
  revert lo. induction n as [|n IH]; intros lo.
  - constructor.
  - rewrite calendar_S. constructor; [apply IH |].
    apply List.Forall_forall. intros d Hd. apply calendar_bounds in Hd. lia.
Qed.

Lemma calendar_app lo n m :
  calendar lo (n + m) = (calendar lo n ++ calendar (lo + Z.of_nat n) m)%list.
Proof.
  revert lo. induction n as [|n IH]; intros lo.
  - cbn [Nat.add calendar seq List.map app]. unfold calendar.
    apply List.map_ext. intros i. lia.
  - cbn [Nat.add]. rewrite !calendar_S, IH. cbn [app]. do 3 f_equal. lia.
Qed.

Lemma date_range_split lo m hi :
  (lo <= m)%Z -> (m <= hi + 1)%Z ->
  date_range lo hi = (date_range lo (m - 1) ++ date_range m hi)%list.
Proof.
  intros H1 H2. rewrite !date_range_calendar.
  replace (Z.to_nat (hi - lo + 1))
    with (Z.to_nat (m - 1 - lo + 1) + Z.to_nat (hi - m + 1))%nat by lia.
  rewrite calendar_app. do 2 f_equal. lia.
Qed.

(** ** Sorted indexes *)

Lemma sorted_NoDup (l : list Z) : StronglySorted Z.lt l -> NoDup l.
Proof.
  induction 1 as [|a l Hs IH Hall]; constructor; [| exact IH].
  intros Hin. rewrite List.Forall_forall in Hall.
  apply list_elem_of_In in Hin. specialize (Hall _ Hin). lia.
Qed.

Lemma sorted_lookup_lt (l : list Z) i j a b :
  StronglySorted Z.lt l -> l !! i = Some a -> l !! j = Some b -> (i < j)%nat -> (a < b)%Z.
Proof.
  intros Hs. revert i j. induction Hs as [|x l Hs IH Hall]; intros i j Hi Hj Hlt.
  - discriminate.
  - destruct j as [|j]; [lia |]. destruct i as [|i].
    + injection Hi as ->. cbn in Hj. rewrite List.Forall_forall in Hall.
      apply Hall. apply list_elem_of_In. eapply list_elem_of_lookup_2. exact Hj.
    + cbn in Hi, Hj. eapply IH; eauto. lia.
Qed.

Lemma sorted_min (d0 : Z) rest :
  StronglySorted Z.lt (d0 :: rest) -> fold_right Z.min d0 rest = d0.
Proof.
  intros Hs. inversion Hs as [|? ? _ Hall]; subst. clear Hs.
  induction Hall as [|x l Hx _ IH]; [reflexivity |].
  cbn. rewrite IH. lia.
Qed.

Lemma sorted_max (d0 : Z) rest :
  StronglySorted Z.lt (d0 :: rest) -> Some (fold_right Z.max d0 rest) = last (d0 :: rest).
Proof.
  revert d0. induction rest as [|x rest IH]; intros d0 Hs; [reflexivity |].
  inversion Hs as [|? ? Hs' Hall]; subst.
  change (last (d0 :: x :: rest)) with (last (x :: rest)). rewrite <- (IH x Hs').
  f_equal. cbn [fold_right].
  assert (Hge : (x <= fold_right Z.max x rest)%Z).
  { clear. induction rest as [|y rest IH]; cbn; lia. }
  assert (Hd : (d0 < x)%Z) by (inversion Hall; assumption).
  assert (Hmono : forall a b, (a <= b)%Z -> (fold_right Z.max a rest <= fold_right Z.max b rest)%Z).
  { clear. induction rest as [|y rest IH]; cbn; intros a b Hab; [lia |].
    specialize (IH a b Hab). lia. }
  assert (Hup : forall a, (a <= x)%Z -> Z.max x (fold_right Z.max a rest) = fold_right Z.max x rest).
  { clear. induction rest as [|y rest IH]; cbn; intros a Ha; [lia |].
    specialize (IH a Ha). lia. }
  apply Hup. lia.
Qed.

Lemma fold_min_le (d0 : Z) rest d : In d (d0 :: rest) -> (fold_right Z.min d0 rest <= d)%Z.
Proof.
  induction rest as [|x rest IH]; cbn; [intros [->|[]]; lia |].
  intros [->|[->|H]]; [| lia |].
  - specialize (IH (or_introl eq_refl)). lia.
  - specialize (IH (or_intror H)). lia.
Qed.

Lemma fold_max_ge (d0 : Z) rest d : In d (d0 :: rest) -> (d <= fold_right Z.max d0 rest)%Z.
Proof.
  induction rest as [|x rest IH]; cbn; [intros [->|[]]; lia |].
  intros [->|[->|H]]; [| lia |].
  - specialize (IH (or_introl eq_refl)). lia.
  - specialize (IH (or_intror H)). lia.
Qed.

(** ** Alignment *)

Lemma lookup_map {A B} (f : A -> B) (l : list A) (i : nat) :
  List.map f l !! i = match l !! i with Some x => Some (f x) | None => None end.
Proof.
  revert i. induction l as [|x l IH]; intros [|i]; cbn; try reflexivity. apply IH.
Qed.

Lemma at_stamp_absent idx col d : ~ In d idx -> at_stamp idx col d = None.
Proof.
  revert col. induction idx as [|i idx IH]; intros col Hd; [reflexivity |].
  destruct col as [|v col]; [reflexivity |]. cbn.
  case_bool_decide as E; [subst; exfalso; apply Hd; left; reflexivity |].
  apply IH. intros H. apply Hd. right. exact H.
Qed.

Lemma at_stamp_lookup idx col i d v :
  NoDup idx -> idx !! i = Some d -> col !! i = Some v -> at_stamp idx col d = v.
Proof.
  intros Hnd. revert col i. induction Hnd as [|x idx Hx Hnd IH]; intros col i Hi Hv.
  - discriminate.
  - destruct col as [|c col]; [discriminate |]. destruct i as [|i]; cbn in *.
    + injection Hi as ->. injection Hv as ->. rewrite bool_decide_eq_true_2; reflexivity.
    + case_bool_decide as E.
      * subst. exfalso. apply Hx. eapply list_elem_of_lookup_2. exact Hi.
      * eapply IH; eauto.
Qed.

Lemma at_stamp_app idx1 idx2 (c1 c2 : list value) d :
  length idx1 = length c1 -> ~ In d idx1 ->
  at_stamp (idx1 ++ idx2) (c1 ++ c2) d = at_stamp idx2 c2 d.
Proof.
  revert c1. induction idx1 as [|i idx1 IH]; intros [|v c1] Hlen Hd;
    try discriminate; [reflexivity |].
  cbn. case_bool_decide as E; [subst; exfalso; apply Hd; left; reflexivity |].
  apply IH; [cbn in Hlen; lia |]. intros H. apply Hd. right. exact H.
Qed.

Lemma reindex_self idx col :
  NoDup idx -> length col = length idx -> reindex idx col idx = col.
Proof.
  intros Hnd. revert col. induction Hnd as [|x idx Hx Hnd IH]; intros [|c col] Hlen;
    try discriminate; [reflexivity |].
  unfold reindex. cbn [List.map at_stamp].
  rewrite bool_decide_eq_true_2 by reflexivity. f_equal.
  transitivity (reindex idx col idx); [| apply IH; cbn in Hlen; lia].
  apply List.map_ext_in. intros d Hd. cbn [at_stamp].
  rewrite bool_decide_eq_false_2; [reflexivity |].
  intros ->. apply Hx. apply list_elem_of_In. exact Hd.
Qed.

(** ** Linear interpolation *)

Lemma interpolate_from_length prev col : length (interpolate_from prev col) = length col.
Proof.
  revert prev. induction col as [|[v|] col IH]; intros prev; cbn; [reflexivity | |].
  - rewrite IH. reflexivity.
  - destruct prev as [[p j]|]; cbn; rewrite IH; reflexivity.
Qed.

(** Numbers are left as they are. *)
Lemma interpolate_from_defined prev col :
  Forall is_Some col -> interpolate_from prev col = col.
Proof.
  intros H. revert prev. induction H as [|v col [q ->] _ IH]; intros prev; [reflexivity |].
  cbn. rewrite IH. reflexivity.
Qed.

Lemma interpolate_from_app prev c1 c2 :
  exists out1,
    length out1 = length c1 /\
    interpolate_from prev (c1 ++ c2) = (out1 ++ interpolate_from (scan_state prev c1) c2)%list.
Proof.
  revert prev. induction c1 as [|[v|] c1 IH]; intros prev.
  - exists []. split; reflexivity.
  - destruct (IH (Some (v, 1%nat))) as (o & Hl & He).
    exists (Some v :: o). split; [cbn; lia |]. cbn. rewrite He. reflexivity.
  - destruct prev as [[p j]|].
    + destruct (IH (Some (p, S j))) as (o & Hl & He).
      eexists (_ :: o). split; [cbn; lia |]. cbn. rewrite He. reflexivity.
    + destruct (IH None) as (o & Hl & He).
      exists (None :: o). split; [cbn; lia |]. cbn. rewrite He. reflexivity.
Qed.

(** A lone NaN between two numbers becomes the point on the line through
    them. *)
Lemma interpolate_from_midpoint prev (v1 v2 : Q) rest :
  interpolate_from prev (Some v1 :: None :: Some v2 :: rest)
  = Some v1
    :: Some (v1 + (v2 - v1) * (inject_Z (Z.of_nat 1) / inject_Z (Z.of_nat (1 + 1))))%Q
    :: Some v2 :: interpolate_from (Some (v2, 1%nat)) rest.
Proof. reflexivity. Qed.

(** ** The daily resampler: [_resample_daily] *)

(** On a sorted index the resampled calendar runs from the first stamp to
    the last one. *)
Lemma resample_daily_sorted (data : DataFrame) d0 rest dn :
  index data = d0 :: rest ->
  StronglySorted Z.lt (index data) ->
  last (index data) = Some dn ->
  _resample_daily data
  = Ok {| index := date_range d0 dn;
          columns :=
            List.map (fun kc => (kc.1, interpolate (reindex (index data) kc.2 (date_range d0 dn))))
                     (columns data) |}.
Proof.
  destruct data as [idx cols]. cbn [index columns]. intros -> Hs Hlast.
  unfold _resample_daily. cbn [index columns].
  rewrite bool_decide_eq_true_2 by (apply sorted_NoDup; exact Hs).
  rewrite sorted_min by exact Hs.
  pose proof (sorted_max _ _ Hs) as Hmax. rewrite Hlast in Hmax.
  injection Hmax as ->. reflexivity.
Qed.

(** A table on a calendar of consecutive days whose columns are fixed
    points of the interpolation is a fixed point of the resampler. *)
Lemma resample_daily_fixed (data : DataFrame) (lo hi : Z) :
  index data = date_range lo hi ->
  Forall (fun kc => length kc.2 = length (index data) /\ interpolate kc.2 = kc.2)
         (columns data) ->
  _resample_daily data = Ok data.
Proof.
  intros Hidx Hcols. destruct data as [idx cols]. cbn [index columns] in *.
  destruct idx as [|d0 rest] eqn:E; [reflexivity |].
  assert (Hs : StronglySorted Z.lt (d0 :: rest)).
  { rewrite Hidx, date_range_calendar. apply calendar_sorted. }
  assert (Hne : (lo <= hi)%Z).
  { destruct (Z_le_gt_dec lo hi) as [H|H]; [exact H |].
    rewrite date_range_empty in Hidx by lia. discriminate. }
  destruct (last (d0 :: rest)) as [dn|] eqn:Hlast; [| apply last_None in Hlast; discriminate].
  erewrite resample_daily_sorted; [| reflexivity | exact Hs | exact Hlast].
  cbn [index columns].
  assert (Hd0 : d0 = lo).
  { rewrite date_range_cons in Hidx by exact Hne. congruence. }
  assert (Hdn : dn = hi).
  { rewrite (date_range_split lo hi hi) in Hidx by lia.
    rewrite (date_range_cons hi hi), (date_range_empty (hi + 1) hi) in Hidx by lia.
    rewrite Hidx, last_snoc in Hlast. congruence. }
  subst d0 dn. rewrite <- Hidx.
  assert (Hsame : List.map (fun kc : string * list value =>
                    (kc.1, interpolate (reindex (lo :: rest) kc.2 (lo :: rest)))) cols = cols).
  { induction Hcols as [|[k c] cols [Hlen Hfix] _ IH]; [reflexivity |].
    cbn [List.map fst snd] in *. rewrite IH. do 2 f_equal.
    rewrite reindex_self; [exact Hfix | apply sorted_NoDup, Hs | exact Hlen]. }
  rewrite Hsame. reflexivity.
Qed.

(** C4.  The daily resampler is idempotent: a table whose index is a
    calendar of consecutive days and whose columns hold one number for each
    of these days is returned as it is, same stamps and same values. *)
Theorem resample_daily_idempotent (data : DataFrame) (lo hi : Z) :
  index data = date_range lo hi ->
  Forall (fun kc => length kc.2 = length (index data) /\ Forall is_Some kc.2)
         (columns data) ->
  _resample_daily data = Ok data.
Proof.
  intros Hidx Hcols. apply (resample_daily_fixed data lo hi Hidx).
  eapply Forall_impl; [exact Hcols |].
  intros kc [Hlen Hdef]. split; [exact Hlen |].
  apply interpolate_from_defined. exact Hdef.
Qed.

Lemma resample_daily_idempotent_witness : _resample_daily daily_fortnight = Ok daily_fortnight.
Proof.
  apply (resample_daily_idempotent daily_fortnight 10 13).
  - reflexivity.
  - repeat constructor; eexists; reflexivity.
Defined.

(** Once a number has been seen, every later cell is a number. *)
Lemma interpolate_from_seen p col : Forall is_Some (interpolate_from (Some p) col).
Proof.
  revert p. induction col as [|[v|] col IH]; intros [q j]; cbn; constructor; try apply IH.
  - eexists. reflexivity.
  - destruct (next_valid col) as [[k w]|]; eexists; reflexivity.
Qed.

Lemma interpolate_interpolate col : interpolate (interpolate col) = interpolate col.
Proof.
  unfold interpolate. induction col as [|[v|] col IH]; cbn; [reflexivity | |].
  - f_equal. apply interpolate_from_defined, interpolate_from_seen.
  - f_equal. exact IH.
Qed.

(** Resampling twice is resampling once, for every table the resampler
    accepts. *)
Lemma resample_daily_twice (data out : DataFrame) :
  _resample_daily data = Ok out -> _resample_daily out = Ok out.
Proof.
  intros H. unfold _resample_daily in H.
  destruct (index data) as [|d0 rest] eqn:Hidx.
  - injection H as <-. unfold _resample_daily. rewrite Hidx. reflexivity.
  - destruct (bool_decide (NoDup (d0 :: rest))); [| discriminate].
    injection H as <-.
    apply (resample_daily_fixed _ (fold_right Z.min d0 rest) (fold_right Z.max d0 rest));
      [reflexivity |].
    cbn [index columns]. apply List.Forall_forall. intros kc Hin.
    apply in_map_iff in Hin. destruct Hin as ([k c] & <- & _). cbn [fst snd]. split.
    + unfold interpolate, reindex. rewrite interpolate_from_length, length_map. reflexivity.
    + apply interpolate_interpolate.
Qed.

(** C5.  In a date-sorted source whose consecutive rows [i] and [i+1] carry
    the stamps [d1] and [d1 + 2] and the numbers [v1] and [v2], the
    resampled column holds [(v1 + v2) / 2] at the day [d1 + 1]; and the
    resampled index is the calendar from the first to the last stamp of the
    source, nothing before and nothing after. *)
Theorem resample_daily_midpoint
        (data : DataFrame) (n i : nat) (k : string) (col : list value)
        (first final d1 : Z) (v1 v2 : Q) :
  StronglySorted Z.lt (index data) ->
  head (index data) = Some first ->
  last (index data) = Some final ->
  columns data !! n = Some (k, col) ->
  index data !! i = Some d1 ->
  index data !! S i = Some (d1 + 2)%Z ->
  col !! i = Some (Some v1) ->
  col !! S i = Some (Some v2) ->
  exists out col' mid,
    _resample_daily data = Ok out /\
    index out = date_range first final /\
    columns out !! n = Some (k, col') /\
    at_stamp (index out) col' (d1 + 1) = Some mid /\
    (mid == (v1 + v2) / 2)%Q.
Proof.
  intros Hs Hfirst Hlast Hcol Hi1 Hi2 Hv1 Hv2.
  destruct (index data) as [|d0 rest] eqn:Hidx; [discriminate |].
  injection Hfirst as ->.
  pose proof (sorted_NoDup _ Hs) as Hnd.
  assert (Hlo : (first <= d1)%Z).
  { pose proof (sorted_min _ _ Hs) as Hm. rewrite <- Hm.
    apply fold_min_le. apply list_elem_of_In. eapply list_elem_of_lookup_2. exact Hi1. }
  assert (Hhi : (d1 + 2 <= final)%Z).
  { pose proof (sorted_max _ _ Hs) as Hm. rewrite Hlast in Hm. injection Hm as <-.
    apply fold_max_ge. apply list_elem_of_In. eapply list_elem_of_lookup_2. exact Hi2. }
  assert (Hmid : ~ In (d1 + 1)%Z (first :: rest)).
  { intros Hin. apply list_elem_of_In, list_elem_of_lookup in Hin. destruct Hin as [j Hj].
    destruct (Nat.lt_total j i) as [Hlt|[->|Hgt]].
    - pose proof (sorted_lookup_lt _ _ _ _ _ Hs Hj Hi1 Hlt). lia.
    - rewrite Hi1 in Hj. injection Hj. lia.
    - destruct (Nat.eq_dec j (S i)) as [->|Hne].
      + rewrite Hi2 in Hj. injection Hj. lia.
      + assert (Hlt : (S i < j)%nat) by lia.
        pose proof (sorted_lookup_lt _ _ _ _ _ Hs Hi2 Hj Hlt). lia. }
  set (days := date_range first final).
  set (r := reindex (first :: rest) col days).
  exists {| index := days;
            columns := List.map (fun kc => (kc.1, interpolate (reindex (first :: rest) kc.2 days)))
                                (columns data) |}.
  exists (interpolate r).
  exists (v1 + (v2 - v1) * (inject_Z (Z.of_nat 1) / inject_Z (Z.of_nat (1 + 1))))%Q.
  split; [| split; [reflexivity | split; [| split]]].
  - rewrite <- Hidx in Hs, Hlast. rewrite (resample_daily_sorted data first rest final Hidx Hs Hlast).
    rewrite Hidx. reflexivity.
  - cbn [columns]. rewrite lookup_map, Hcol. reflexivity.
  - cbn [index].
    assert (Hdays : days = (date_range first (d1 - 1)
                            ++ [d1; (d1 + 1)%Z; (d1 + 2)%Z] ++ date_range (d1 + 3) final)%list).
    { unfold days. rewrite (date_range_split first d1 final) by lia. f_equal.
      rewrite (date_range_cons d1 final) by lia.
      rewrite (date_range_cons (d1 + 1) final) by lia.
      rewrite (date_range_cons (d1 + 1 + 1) final) by lia.
      replace (d1 + 1 + 1)%Z with (d1 + 2)%Z by lia.
      replace (d1 + 2 + 1)%Z with (d1 + 3)%Z by lia. reflexivity. }
    assert (Hr : r = (reindex (first :: rest) col (date_range first (d1 - 1))
                      ++ [Some v1; None; Some v2]
                      ++ reindex (first :: rest) col (date_range (d1 + 3) final))%list).
    { unfold r, reindex. rewrite Hdays, !List.map_app. cbn [List.map].
      rewrite (at_stamp_lookup _ _ _ _ _ Hnd Hi1 Hv1).
      rewrite (at_stamp_lookup _ _ _ _ _ Hnd Hi2 Hv2).
      rewrite (at_stamp_absent _ _ _ Hmid). reflexivity. }
    unfold interpolate. rewrite Hr.
    destruct (interpolate_from_app None
                (reindex (first :: rest) col (date_range first (d1 - 1)))
                ([Some v1; None; Some v2]
                 ++ reindex (first :: rest) col (date_range (d1 + 3) final)))
      as (o & Hlen & ->).
    cbn [app]. rewrite interpolate_from_midpoint, Hdays.
    rewrite at_stamp_app.
    + cbn [app at_stamp]. rewrite bool_decide_eq_false_2 by lia.
      rewrite bool_decide_eq_true_2 by reflexivity. reflexivity.
    + rewrite Hlen. unfold reindex. rewrite length_map. reflexivity.
    + rewrite date_range_calendar. intros Hin. apply calendar_bounds in Hin. lia.
  - cbn. field.
Qed.

Lemma resample_daily_midpoint_witness :
  exists out col' mid,
    _resample_daily quarterly_pair = Ok out /\
    index out = date_range 3 9 /\
    columns out !! 0%nat = Some ("Book-Value Per Share", col') /\
    at_stamp (index out) col' (3 + 1) = Some mid /\
    (mid == (4 + 7) / 2)%Q.
Proof.
  apply (resample_daily_midpoint quarterly_pair 0 0 "Book-Value Per Share"
           [Some 4%Q; Some 7%Q; Some 8%Q] 3 9 3 4 7).
  - repeat constructor; lia.
  - reflexivity.
  - reflexivity.
  - reflexivity.
  - reflexivity.
  - reflexivity.
  - reflexivity.
  - reflexivity.
Defined.

(** ** The common period *)

Lemma comprehension_total {A B} (f : A -> result B) (l : list A) :
  Forall (fun x => exists y, f x = Ok y) l ->
  exists ys, comprehension f l = Ok ys /\ Forall2 (fun x y => f x = Ok y) l ys.
Proof.
  induction 1 as [|x l [y Hy] _ (ys & He & Hall)].
  - exists []. split; [reflexivity | constructor].
  - exists (y :: ys). split; [| constructor; assumption].
    cbn. rewrite Hy. cbn. rewrite He. reflexivity.
Qed.

Lemma fold_left_max_spec (l : list Z) (x : Z) :
  In (fold_left Z.max l x) (x :: l) /\ forall y, In y (x :: l) -> (y <= fold_left Z.max l x)%Z.
Proof.
  revert x. induction l as [|a l IH]; intros x; cbn [fold_left].
  - split; [left; reflexivity | intros y [->|[]]; lia].
  - destruct (IH (Z.max x a)) as [Hin Hub]. split.
    + destruct Hin as [Hm|Hin]; [| right; right; exact Hin].
      rewrite <- Hm. destruct (Z.max_spec x a) as [[_ ->]|[_ ->]]; [right; left | left]; reflexivity.
    + intros y [<-|[<-|Hy]].
      * specialize (Hub (Z.max x a) (or_introl eq_refl)). lia.
      * specialize (Hub (Z.max x a) (or_introl eq_refl)). lia.
      * apply Hub. right. exact Hy.
Qed.

Lemma fold_left_min_spec (l : list Z) (x : Z) :
  In (fold_left Z.min l x) (x :: l) /\ forall y, In y (x :: l) -> (fold_left Z.min l x <= y)%Z.
Proof.
  revert x. induction l as [|a l IH]; intros x; cbn [fold_left].
  - split; [left; reflexivity | intros y [->|[]]; lia].
  - destruct (IH (Z.min x a)) as [Hin Hlb]. split.
    + destruct Hin as [Hm|Hin]; [| right; right; exact Hin].
      rewrite <- Hm. destruct (Z.min_spec x a) as [[_ ->]|[_ ->]]; [left | right; left]; reflexivity.
    + intros y [<-|[<-|Hy]].
      * specialize (Hlb (Z.min x a) (or_introl eq_refl)). lia.
      * specialize (Hlb (Z.min x a) (or_introl eq_refl)). lia.
      * apply Hlb. right. exact Hy.
Qed.

Lemma Forall2_In_r {A B} (P : A -> B -> Prop) l ys y :
  Forall2 P l ys -> In y ys -> exists x, In x l /\ P x y.
Proof.
  induction 1 as [|x y' l ys Hp _ IH]; [intros [] |].
  intros [->|Hy]; [exists x; split; [left; reflexivity | exact Hp] |].
  destruct (IH Hy) as (x' & Hx' & Hp'). exists x'. split; [right |]; assumption.
Qed.

Lemma Forall2_In_l {A B} (P : A -> B -> Prop) l ys x :
  Forall2 P l ys -> In x l -> exists y, In y ys /\ P x y.
Proof.
  induction 1 as [|x' y l ys Hp _ IH]; [intros [] |].
  intros [->|Hx]; [exists y; split; [left; reflexivity | exact Hp] |].
  destruct (IH Hx) as (y' & Hy' & Hp'). exists y'. split; [right |]; assumption.
Qed.

(** C6.  For a non-empty list of tables that each have at least one row,
    [common_period] returns a pair [(s, e)] and leaves the tables as they
    were: [s] is the first stamp of one of the tables and no table starts
    later; [e] is the last stamp of one of the tables and no table ends
    earlier. *)
Theorem common_period_max_min (dfs : list DataFrame) :
  dfs <> [] ->
  Forall (fun df => index df <> []) dfs ->
  exists s e,
    common_period dfs = (dfs, Ok (s, e)) /\
    (exists df, In df dfs /\ head (index df) = Some s) /\
    (forall df d, In df dfs -> head (index df) = Some d -> (d <= s)%Z) /\
    (exists df, In df dfs /\ last (index df) = Some e) /\
    (forall df d, In df dfs -> last (index df) = Some d -> (e <= d)%Z).
Proof.
  intros Hne Hrows.
  assert (Hfirst : Forall (fun df => exists d, first_stamp df = Ok d) dfs).
  { eapply Forall_impl; [exact Hrows |]. intros df H. cbn beta in H. unfold first_stamp.
    destruct (index df) as [|d ?]; [congruence | eauto]. }
  assert (Hlast : Forall (fun df => exists d, last_stamp df = Ok d) dfs).
  { eapply Forall_impl; [exact Hrows |]. intros df H. cbn beta in H. unfold last_stamp.
    destruct (last (index df)) as [d|] eqn:E; [eauto |].
    apply last_None in E. congruence. }
  destruct (comprehension_total _ _ Hfirst) as (starts & Hs & Fs).
  destruct (comprehension_total _ _ Hlast) as (ends & He & Fe).
  destruct dfs as [|df0 dfs']; [congruence |].
  inversion Fs as [|? s0 ? starts' Hs0 Fs']; subst.
  inversion Fe as [|? e0 ? ends' He0 Fe']; subst.
  destruct (fold_left_max_spec starts' s0) as [Hsin Hsub].
  destruct (fold_left_min_spec ends' e0) as [Hein Helb].
  exists (fold_left Z.max starts' s0), (fold_left Z.min ends' e0).
  split; [| split; [| split; [| split]]].
  - unfold common_period, mbind, M_bind, get, lift. rewrite Hs, He. reflexivity.
  - destruct (Forall2_In_r _ _ _ _ Fs Hsin) as (df & Hdf & Hst).
    exists df. split; [exact Hdf |]. unfold first_stamp in Hst.
    destruct (index df); [discriminate |]. injection Hst as ->. reflexivity.
  - intros df d Hdf Hd. destruct (Forall2_In_l _ _ _ _ Fs Hdf) as (y & Hy & Hst).
    unfold first_stamp in Hst. destruct (index df); [discriminate |].
    injection Hst as ->. injection Hd as ->. apply Hsub. exact Hy.
  - destruct (Forall2_In_r _ _ _ _ Fe Hein) as (df & Hdf & Hst).
    exists df. split; [exact Hdf |]. unfold last_stamp in Hst.
    destruct (last (index df)); [| discriminate]. injection Hst as ->. reflexivity.
  - intros df d Hdf Hd. destruct (Forall2_In_l _ _ _ _ Fe Hdf) as (y & Hy & Hst).
    unfold last_stamp in Hst. rewrite Hd in Hst. injection Hst as ->.
    apply Helb. exact Hy.
Qed.

Lemma common_period_max_min_witness :
  common_period [table_2010_2015; table_2012_2016]
  = ([table_2010_2015; table_2012_2016],
     Ok (days_from_civil 2012 1 1, days_from_civil 2015 1 1)).
Proof.
  destruct (common_period_max_min [table_2010_2015; table_2012_2016])
    as (s & e & Hrun & (dfs & Hdfs & Hs) & Hsub & (dfe & Hdfe & He) & Helb).
  - discriminate.
  - repeat constructor; vm_compute; discriminate.
  - rewrite Hrun. do 3 f_equal.
    + pose proof (Hsub table_2010_2015 _ (or_introl eq_refl) eq_refl) as H1.
      pose proof (Hsub table_2012_2016 _ (or_intror (or_introl eq_refl)) eq_refl) as H2.
      destruct Hdfs as [<-|[<-|[]]]; vm_compute in Hs; injection Hs as <-;
        vm_compute in H1, H2; try (exfalso; apply H2; reflexivity); reflexivity.
    + pose proof (Helb table_2010_2015 _ (or_introl eq_refl) eq_refl) as H1.
      pose proof (Helb table_2012_2016 _ (or_intror (or_introl eq_refl)) eq_refl) as H2.
      destruct Hdfe as [<-|[<-|[]]]; vm_compute in He; injection He as <-;
        vm_compute in H1, H2; try (exfalso; apply H1; reflexivity); reflexivity.
Defined.

(** ** The key registry *)

(** The names that [data.py] evaluates and the registry does not bind. *)
Lemma data_keys_unbound :
  unbound_keys data_keys
  = [ "TOTAL_RETURN"; "SHARE_PRICE"; "EARNINGS_PER_SHARE"; "PE"; "PROFIT_MARGIN";
      "SALES_PER_SHARE"; "PSALES"; "SALES_GROWTH"; "BOOK_VALUE_PER_SHARE"; "PBOOK";
      "DIVIDEND_TTM"; "PDIVIDEND"; "DIVIDEND_YIELD";
      "OPEN"; "CLOSE"; "HIGH"; "LOW"; "VOLUME" ].
Proof. vm_compute. reflexivity. Qed.

Lemma completed_keys_bound : unbound_keys completed_keys = [].
Proof. vm_compute. reflexivity. Qed.

Lemma global_unbound (G : gmap string string) name :
  G !! name = None -> global G name = Raise (NameError name).
Proof. intros H. unfold global. rewrite H. reflexivity. Qed.

Lemma data_keys_lookup_unbound name :
  In name (unbound_keys data_keys) -> data_keys !! name = None.
Proof.
  unfold unbound_keys. rewrite filter_In. intros [_ H].
  apply bool_decide_eq_true in H. exact H.
Qed.

Lemma data_keys_TOTAL_RETURN : global data_keys "TOTAL_RETURN" = Raise (NameError "TOTAL_RETURN").
Proof. vm_compute. reflexivity. Qed.

Lemma data_keys_DATE_TIME : global data_keys "DATE_TIME" = Ok "Date and Time".
Proof. vm_compute. reflexivity. Qed.

Lemma data_keys_OPEN : global data_keys "OPEN" = Raise (NameError "OPEN").
Proof. vm_compute. reflexivity. Qed.

(** ** The price loader on the repository's registry *)

Lemma load_price_yahoo_data_keys fs ticker :
  _load_price_yahoo data_keys fs ticker
  = match read_csv fs (data_file ticker " Share-Price (Yahoo).csv") with
    | Ok _ => Raise (NameError "TOTAL_RETURN")
    | Raise e => Raise e
    end.
Proof.
  unfold _load_price_yahoo, data_file.
  destruct (read_csv fs _) as [t|e]; [| reflexivity].
  cbn [mbind result_bind]. rewrite data_keys_TOTAL_RETURN. reflexivity.
Qed.

(** C1.  The registry binds neither SHARE_PRICE nor TOTAL_RETURN, although
    the price loader evaluates both; so for every ticker whose price file
    is read without error the loader stops with NameError for
    TOTAL_RETURN instead of returning a table (and passes the reader's
    error on when the file is missing or malformed). *)
Theorem price_loader_name_error :
  data_keys !! "SHARE_PRICE" = None /\
  data_keys !! "TOTAL_RETURN" = None /\
  forall (fs : gmap string file) (ticker : string),
    _load_price_yahoo data_keys fs ticker
    = match read_csv fs (data_file ticker " Share-Price (Yahoo).csv") with
      | Ok _ => Raise (NameError "TOTAL_RETURN")
      | Raise e => Raise e
      end.
Proof.
  split; [vm_compute; reflexivity |]. split; [vm_compute; reflexivity |].
  exact load_price_yahoo_data_keys.
Qed.

Example price_loader_wmt :
  _load_price_yahoo data_keys wmt_files "WMT" = Raise (NameError "TOTAL_RETURN").
Proof. vm_compute. reflexivity. Qed.

(** With the names bound the same call returns the two renamed columns,
    total return first. *)
Example price_loader_wmt_completed :
  _load_price_yahoo completed_keys wmt_files "WMT"
  = Ok {| index := [100; 101; 102; 103]%Z;
          columns :=
            [ ("Total Return", [Some 9%Q; Some 10%Q; Some 11%Q; Some 11%Q]);
              ("Share-price", [Some 10%Q; Some 11%Q; Some 12%Q; Some 12%Q]) ] |}.
Proof. vm_compute. reflexivity. Qed.

(** ** The assemblers on the repository's registry *)

(** C3.  On the repository's registry [load_stock_data] returns no table,
    whatever the flags: when the price file is read without error the call
    stops with NameError for TOTAL_RETURN inside the price loader, before
    any enricher runs, so no PROFIT_MARGIN column is ever produced. *)
Theorem load_stock_data_name_error
        (fs : gmap string file) (ticker : string)
        (earnings sales book_value dividend_TTM : bool) :
  load_stock_data data_keys fs ticker earnings sales book_value dividend_TTM
  = match read_csv fs (data_file ticker " Share-Price (Yahoo).csv") with
    | Ok _ => Raise (NameError "TOTAL_RETURN")
    | Raise e => Raise e
    end.
Proof.
  unfold load_stock_data. rewrite load_price_yahoo_data_keys.
  destruct (read_csv fs _); reflexivity.
Qed.

Example load_stock_data_wmt :
  load_stock_data data_keys wmt_files "WMT" true true true false
  = Raise (NameError "TOTAL_RETURN").
Proof. vm_compute. reflexivity. Qed.

(** The call to [returns.total_return] cannot succeed: [returns] is not
    bound, or it is bound to a string. *)
Lemma returns_total_return_raises (G : gmap string string) df :
  is_raise (returns_total_return G df) = true.
Proof.
  unfold returns_total_return, global. destruct (G !! "returns"); reflexivity.
Qed.

Lemma load_index_data_raises (G : gmap string string) fs ticker sales book_value dividend_TTM :
  is_raise (load_index_data G fs ticker sales book_value dividend_TTM) = true.
Proof.
  unfold load_index_data.
  destruct (_load_price_yahoo G fs ticker) as [p|]; [| reflexivity].
  cbn [mbind result_bind].
  destruct (_load_data fs _) as [d|]; [| reflexivity].
  cbn [mbind result_bind].
  destruct (concat_columns p d) as [df|]; [| reflexivity].
  cbn [mbind result_bind].
  destruct (global G "SHARE_PRICE") as [k|]; [| reflexivity].
  cbn [mbind result_bind].
  destruct (dropna df k) as [df'|]; [| reflexivity].
  cbn [mbind result_bind].
  pose proof (returns_total_return_raises G df') as H.
  destruct (returns_total_return G df'); [discriminate | reflexivity].
Qed.

(** C2.  [load_index_data] returns no table.  On the repository's registry
    the call stops with NameError for TOTAL_RETURN inside the price loader
    when the price file is read without error; and under any binding of
    the module's names to string constants it raises, because the module
    never imports [returns], whose [total_return] it calls. *)
Theorem load_index_data_name_error :
  (forall (fs : gmap string file) (ticker : string) (sales book_value dividend_TTM : bool),
      load_index_data data_keys fs ticker sales book_value dividend_TTM
      = match read_csv fs (data_file ticker " Share-Price (Yahoo).csv") with
        | Ok _ => Raise (NameError "TOTAL_RETURN")
        | Raise e => Raise e
        end) /\
  (forall (G : gmap string string) (fs : gmap string file) (ticker : string)
          (sales book_value dividend_TTM : bool),
      is_raise (load_index_data G fs ticker sales book_value dividend_TTM) = true).
Proof.
  split; [| exact load_index_data_raises].
  intros fs ticker sales book_value dividend_TTM.
  unfold load_index_data. rewrite load_price_yahoo_data_keys.
  destruct (read_csv fs _); reflexivity.
Qed.

Example load_index_data_wmt :
  load_index_data data_keys wmt_files "WMT" true true true
  = Raise (NameError "TOTAL_RETURN").
Proof. vm_compute. reflexivity. Qed.

(** With the column keys bound the call gets as far as [returns]. *)
Example load_index_data_wmt_completed :
  load_index_data completed_keys wmt_files "WMT" false false false
  = Raise (NameError "returns").
Proof. vm_compute. reflexivity. Qed.

(** ** Intraday share prices on the repository's registry *)

Lemma load_one_intraday_data_keys fs ticker interval :
  is_raise (load_one_intraday data_keys fs ticker interval) = true.
Proof.
  unfold load_one_intraday. destruct (read_csv fs _); [| reflexivity].
  cbn [mbind result_bind]. rewrite data_keys_DATE_TIME. cbn [mbind result_bind].
  rewrite data_keys_OPEN. reflexivity.
Qed.

Lemma load_all_intraday_data_keys fs tickers interval df_dict :
  load_all_intraday data_keys fs tickers interval df_dict = df_dict.
Proof.
  induction tickers as [|t tickers IH]; [reflexivity |]. cbn [load_all_intraday].
  pose proof (load_one_intraday_data_keys fs t interval) as H.
  destruct (load_one_intraday data_keys fs t interval); [discriminate | exact IH].
Qed.

(** C8.  On the repository's registry [load_shareprices_intraday] returns
    no result for any list of tickers: the NameError for OPEN raised
    while the rename map is built is swallowed by the bare [except], so
    every ticker is skipped, also those whose file is well-formed, and
    the concatenation of nothing raises ValueError. *)
Theorem load_shareprices_intraday_skips_all
        (fs : gmap string file) (tickers : tickers_arg) (interval : string) :
  load_shareprices_intraday data_keys fs tickers interval
  = Raise (ValueError "No objects to concatenate").
Proof.
  unfold load_shareprices_intraday. rewrite load_all_intraday_data_keys. reflexivity.
Qed.

Example load_shareprices_intraday_wmt :
  read_csv wmt_files (_path_shareprices_intraday "WMT" "5min") = Ok wmt_intraday /\
  load_shareprices_intraday data_keys wmt_files (Several ["WMT"]) "5min"
  = Raise (ValueError "No objects to concatenate").
Proof. vm_compute. split; reflexivity. Qed.

(** ** In-place updates and their frame *)

Lemma bind_run {S A B} (m : M S A) (f : A -> M S B) (s : S) :
  (m ≫= f) s
  = match m s with
    | (s', Ok a) => f a s'
    | (s', Raise e) => (s', Raise e)
    end.
Proof. reflexivity. Qed.

Lemma frame_refl W df : frame W df df.
Proof. repeat split; auto. Qed.

Lemma frame_trans W df1 df2 df3 : frame W df1 df2 -> frame W df2 df3 -> frame W df1 df3.
Proof.
  intros (Hi & Hl & Hn & Hg) (Hi' & Hl' & Hn' & Hg'). repeat split.
  - congruence.
  - auto.
  - lia.
  - intros k Hk. rewrite Hg', Hg by exact Hk. reflexivity.
Qed.

Lemma has_label_In k cols : has_label k cols = true <-> In k cols.*1.
Proof.
  unfold has_label. rewrite existsb_exists. split.
  - intros ([k' c] & Hin & Hk). apply bool_decide_eq_true in Hk. cbn in Hk. subst.
    change k with ((k, c).1). apply list_elem_of_In, list_elem_of_fmap_2, list_elem_of_In, Hin.
  - intros Hin. apply list_elem_of_In, list_elem_of_fmap in Hin.
    destruct Hin as ([k' c] & -> & Hin). exists (k', c).
    split; [apply list_elem_of_In, Hin | apply bool_decide_eq_true; reflexivity].
Qed.

Lemma replace_column_labels k col (cols : list (string * list value)) :
  (List.map (fun kc => if bool_decide (kc.1 = k) then (kc.1, col) else kc) cols).*1 = cols.*1.
Proof.
  induction cols as [|[k' c] cols IH]; [reflexivity |].
  cbn [List.map fmap list_fmap fst] in *. rewrite IH.
  case_bool_decide; reflexivity.
Qed.

Lemma replace_column_find k k' col (cols : list (string * list value)) :
  k' <> k ->
  List.find (fun kc => bool_decide (kc.1 = k'))
            (List.map (fun kc => if bool_decide (kc.1 = k) then (kc.1, col) else kc) cols)
  = List.find (fun kc => bool_decide (kc.1 = k')) cols.
Proof.
  intros Hne. induction cols as [|[k0 c] cols IH]; [reflexivity |].
  cbn [List.map fst]. destruct (decide (k0 = k)) as [->|E0].
  - rewrite bool_decide_eq_true_2 by reflexivity. cbn [List.find fst].
    rewrite !bool_decide_eq_false_2 by congruence. exact IH.
  - rewrite (bool_decide_eq_false_2 (k0 = k)) by exact E0. cbn [List.find fst].
    destruct (bool_decide (k0 = k')); [reflexivity | exact IH].
Qed.

Lemma append_column_find k k' col (cols : list (string * list value)) :
  k' <> k ->
  List.find (fun kc => bool_decide (kc.1 = k')) (cols ++ [(k, col)])
  = List.find (fun kc => bool_decide (kc.1 = k')) cols.
Proof.
  intros Hne. induction cols as [|[k0 c] cols IH].
  - cbn. rewrite bool_decide_eq_false_2 by congruence. reflexivity.
  - cbn [app List.find fst]. destruct (bool_decide (k0 = k')); [reflexivity | exact IH].
Qed.

(** A column assignment changes nothing but the column(s) under its label. *)
Lemma frame_setitem (W : string -> Prop) df k col : W k -> frame W df (setitem df k col).
Proof.
  intros Hk. unfold frame, setitem, labels, getitem. cbn [index columns].
  destruct (has_label k (columns df)) eqn:E; repeat split.
  - intros k' Hin. rewrite replace_column_labels. exact Hin.
  - rewrite length_map. lia.
  - intros k' Hk'. rewrite replace_column_find; [reflexivity |]. intros ->. contradiction.
  - intros k' Hin. rewrite fmap_app. apply in_or_app. left. exact Hin.
  - rewrite length_app. lia.
  - intros k' Hk'. rewrite append_column_find; [reflexivity |]. intros ->. contradiction.
Qed.

Section Keeps.

Variable R : DataFrame -> DataFrame -> Prop.
Hypothesis R_refl : forall df, R df df.
Hypothesis R_trans : forall df1 df2 df3, R df1 df2 -> R df2 df3 -> R df1 df3.

Lemma keeps_lift {A} (r : result A) : keeps R (lift r).
Proof. intros df. apply R_refl. Qed.

Lemma keeps_ret {A} (a : A) : keeps R (mret a).
Proof. intros df. apply R_refl. Qed.

Lemma keeps_column k : keeps R (column k).
Proof. intros df. apply R_refl. Qed.

Lemma keeps_bind {A B} (m : M DataFrame A) (f : A -> M DataFrame B) :
  keeps R m -> (forall a, keeps R (f a)) -> keeps R (m ≫= f).
Proof.
  intros Hm Hf df. rewrite bind_run. specialize (Hm df).
  destruct (m df) as [df' [a|e]]; cbn [fst] in *; [| exact Hm].
  eapply R_trans; [exact Hm | apply Hf].
Qed.

Lemma keeps_global_bind {B} (G : gmap string string) name (f : string -> M DataFrame B) :
  (forall k, G !! name = Some k -> keeps R (f k)) -> keeps R (lift (global G name) ≫= f).
Proof.
  intros Hf df. rewrite bind_run. unfold lift, global.
  destruct (G !! name) as [k|] eqn:E; [apply (Hf k eq_refl) | apply R_refl].
Qed.

Lemma keeps_when b (m : M DataFrame unit) : keeps R m -> keeps R (when b m).
Proof. intros Hm. destruct b; [exact Hm | apply keeps_ret]. Qed.

End Keeps.

Lemma keeps_assign W k col : W k -> keeps (frame W) (assign k col).
Proof. intros Hk df. apply frame_setitem. exact Hk. Qed.

Lemma keeps_assign_frame W k v : W k -> keeps (frame W) (assign_frame k v).
Proof.
  intros Hk df. unfold assign_frame, setitem_frame.
  destruct (columns v) as [|[k0 c] [|? ?]]; cbn [fst]; try apply frame_refl.
  apply frame_setitem. exact Hk.
Qed.

Lemma bound_to_intro (G : gmap string string) names name k :
  In name names -> G !! name = Some k -> bound_to G names k.
Proof. intros Hin Hk. exists name. split; assumption. Qed.

Lemma keeps_assign_ratio G names target num den :
  In target names -> keeps (frame (bound_to G names)) (assign_ratio G target num den).
Proof.
  intros Hin. unfold assign_ratio.
  apply keeps_global_bind; [apply frame_refl |]. intros kn _.
  apply keeps_bind; [apply frame_trans | apply keeps_column; apply frame_refl |].
  intros a. apply keeps_global_bind; [apply frame_refl |]. intros kd _.
  apply keeps_bind; [apply frame_trans | apply keeps_column; apply frame_refl |].
  intros b. apply keeps_global_bind; [apply frame_refl |]. intros kt Hkt.
  apply keeps_assign. eapply bound_to_intro; eassumption.
Qed.

Lemma keeps_assign_daily G names target loaded :
  In target names -> keeps (frame (bound_to G names)) (assign_daily G target loaded).
Proof.
  intros Hin. unfold assign_daily.
  apply keeps_bind; [apply frame_trans | apply keeps_lift; apply frame_refl |].
  intros daily. apply keeps_global_bind; [apply frame_refl |]. intros kt Hkt.
  apply keeps_assign_frame. eapply bound_to_intro; eassumption.
Qed.

(** ** The enrichers: frame *)



Lemma book_value_enricher_frame G fs ticker :
  keeps (frame (bound_to G book_value_keys)) (_load_book_value_per_share G fs ticker).
Proof.
  unfold _load_book_value_per_share, book_value_keys.
  apply keeps_bind; [apply frame_trans | apply keeps_lift, frame_refl |]. intros t.
  apply keeps_bind; [apply frame_trans | apply keeps_assign_daily; cbn; tauto |]. intros _.
  apply keeps_assign_ratio; cbn; tauto.
Qed.

Lemma dividend_enricher_frame G fs ticker :
  keeps (frame (bound_to G dividend_keys)) (_load_dividend_TTM G fs ticker).
Proof.
  unfold _load_dividend_TTM, dividend_keys.
  apply keeps_bind; [apply frame_trans | apply keeps_lift, frame_refl |]. intros t.
  apply keeps_bind; [apply frame_trans | apply keeps_assign_daily; cbn; tauto |]. intros _.
  apply keeps_bind; [apply frame_trans | apply keeps_assign_ratio; cbn; tauto |]. intros _.
  apply keeps_assign_ratio; cbn; tauto.
Qed.



(** ** The enrichers on the repository's registry *)

Lemma assign_daily_data_keys name loaded df :
  In name (unbound_keys data_keys) ->
  (assign_daily data_keys name loaded df).1 = df /\
  is_raise (assign_daily data_keys name loaded df).2 = true.
Proof.
  intros Hin. unfold assign_daily. rewrite bind_run. unfold lift.
  destruct (_resample_daily loaded) as [daily|e]; [| split; reflexivity].
  rewrite bind_run. rewrite (global_unbound _ _ (data_keys_lookup_unbound _ Hin)).
  split; reflexivity.
Qed.

Lemma enricher_data_keys {A} name (rest : unit -> M DataFrame A) fs path df :
  In name (unbound_keys data_keys) ->
  ((loaded ← lift (_load_data fs path); _ ← assign_daily data_keys name loaded; rest tt) df).1
  = df /\
  is_raise
    ((loaded ← lift (_load_data fs path); _ ← assign_daily data_keys name loaded; rest tt) df).2
  = true.
Proof.
  intros Hin. rewrite bind_run. unfold lift.
  destruct (_load_data fs path) as [loaded|e]; cbn beta iota; [| split; reflexivity].
  rewrite bind_run.
  destruct (assign_daily_data_keys name loaded df Hin) as [H1 H2].
  destruct (assign_daily data_keys name loaded df) as [df' [u|e]];
    cbn [fst snd] in *; [discriminate | split; [exact H1 | reflexivity]].
Qed.

(** On the repository's registry each of the four enrichers ends in an
    exception raised before its first column assignment and leaves the
    table exactly as it was given. *)
Lemma enrichers_leave_table
        (fs : gmap string file) (ticker : string) (df : DataFrame) (profit_margin : bool) :
  ((_load_sales_per_share data_keys fs ticker df).1 = df /\
   is_raise (_load_sales_per_share data_keys fs ticker df).2 = true) /\
  ((_load_book_value_per_share data_keys fs ticker df).1 = df /\
   is_raise (_load_book_value_per_share data_keys fs ticker df).2 = true) /\
  ((_load_dividend_TTM data_keys fs ticker df).1 = df /\
   is_raise (_load_dividend_TTM data_keys fs ticker df).2 = true) /\
  ((_load_earnings_per_share data_keys fs ticker profit_margin df).1 = df /\
   is_raise (_load_earnings_per_share data_keys fs ticker profit_margin df).2 = true).
Proof.
  split; [| split; [| split]].
  - apply (enricher_data_keys "SALES_PER_SHARE"
             (fun _ => _ ← assign_ratio data_keys "PSALES" "SHARE_PRICE" "SALES_PER_SHARE";
                       ks ← lift (global data_keys "SALES_PER_SHARE");
                       s ← column ks;
                       kg ← lift (global data_keys "SALES_GROWTH");
                       assign kg (pct_change 365 s))).
    rewrite data_keys_unbound. cbn. tauto.
  - apply (enricher_data_keys "BOOK_VALUE_PER_SHARE"
             (fun _ => assign_ratio data_keys "PBOOK" "SHARE_PRICE" "BOOK_VALUE_PER_SHARE")).
    rewrite data_keys_unbound. cbn. tauto.
  - apply (enricher_data_keys "DIVIDEND_TTM"
             (fun _ => _ ← assign_ratio data_keys "PDIVIDEND" "SHARE_PRICE" "DIVIDEND_TTM";
                       assign_ratio data_keys "DIVIDEND_YIELD" "DIVIDEND_TTM" "SHARE_PRICE")).
    rewrite data_keys_unbound. cbn. tauto.
  - apply (enricher_data_keys "EARNINGS_PER_SHARE"
             (fun _ => _ ← assign_ratio data_keys "PE" "SHARE_PRICE" "EARNINGS_PER_SHARE";
                       when profit_margin
                            (assign_ratio data_keys "PROFIT_MARGIN" "EARNINGS_PER_SHARE"
                                          "SALES_PER_SHARE"))).
    rewrite data_keys_unbound. cbn. tauto.
Qed.

Example sales_enricher_wmt :
  _load_sales_per_share data_keys wmt_files "WMT" seeded
  = (seeded, Raise (NameError "SALES_PER_SHARE")).
Proof. vm_compute. reflexivity. Qed.

(** ** Errors of the file loaders *)




Lemma bind_returns {S A B} (m : M S A) (f : A -> M S B) (s s' : S) (b : B) :
  (m ≫= f) s = (s', Ok b) ->
  exists s1 a, m s = (s1, Ok a) /\ f a s1 = (s', Ok b).
Proof.
  rewrite bind_run. destruct (m s) as [s1 [a|e]]; [| discriminate].
  intros H. exists s1, a. split; [reflexivity | exact H].
Qed.

Lemma enriched_returns (m : M DataFrame unit) df df' :
  enriched m df = Ok df' -> m df = (df', Ok tt).
Proof.
  unfold enriched. destruct (m df) as [d [[]|e]]; [| discriminate].
  intros H. injection H as ->. reflexivity.
Qed.




(** With the names bound and every file in place the stock assembler does
    return a table, so the conditions above are not vacuous. *)
Example load_stock_data_wmt_completed :
  is_raise (load_stock_data completed_keys wmt_files "WMT" true true true false) = false.
Proof. vm_compute. reflexivity. Qed.

(** ** Downloading needs the API key *)

Lemma download_one_returns web key interval sleep num_tickers i ticker w :
  exists w', download_one web key interval sleep num_tickers i ticker w = (w', Ok tt).
Proof.
  unfold download_one. rewrite bind_run. unfold print at 1. cbn beta iota.
  rewrite bind_run. unfold requests_get. cbn beta iota.
  rewrite bind_run.
  destruct (bool_decide (status_code (web _) = 200%Z)).
  - rewrite bind_run. unfold write_file, print. cbn beta iota.
    destruct (sleep && bool_decide (i < num_tickers - 1)%Z); cbn; eauto.
  - unfold print. cbn beta iota.
    destruct (sleep && bool_decide (i < num_tickers - 1)%Z); cbn; eauto.
Qed.

Lemma download_loop_returns web key interval sleep num_tickers tickers :
  forall i w, exists w',
    download_loop web key interval sleep num_tickers i tickers w = (w', Ok tt).
Proof.
  induction tickers as [|t tickers IH]; intros i w.
  - exists w. reflexivity.
  - cbn [download_loop]. rewrite bind_run.
    destruct (download_one_returns web key interval sleep num_tickers i t w) as [w1 ->].
    apply IH.
Qed.

Lemma download_with_key web tickers interval sleep w key :
  _api_key_av w = Some key ->
  exists w', download_shareprices_intraday web tickers interval sleep w = (w', Ok tt).
Proof.
  intros Hkey. unfold download_shareprices_intraday. rewrite bind_run. unfold get.
  cbn beta iota. rewrite Hkey. rewrite bind_run.
  destruct (negb (bool_decide (data_dir_intraday ∈ directories w))); cbn [when].
  - unfold makedirs. cbn beta iota. apply download_loop_returns.
  - unfold mret, M_ret. cbn beta iota. apply download_loop_returns.
Qed.

(** C10.  While [_api_key_av] is None, as it is when the module has just
    been imported, every call of [download_shareprices_intraday] raises
    AssertionError and leaves the world as it was: no request has been
    sent and no file written.  After [set_api_key_av], and after a
    [load_api_key_av] that found its file, the call does not end in that
    assertion. *)
Theorem download_needs_api_key
        (home : string) (web : string -> response)
        (tickers : tickers_arg) (interval : string) (sleep : bool) :
  (forall fs dirs keys, _api_key_av (imported fs dirs keys) = None) /\
  (forall w,
      _api_key_av w = None ->
      download_shareprices_intraday web tickers interval sleep w
      = (w, Raise (AssertionError "You need to set an API key for Alpha Vantage"))) /\
  (forall w key,
      fails_assertion
        (download_shareprices_intraday web tickers interval sleep (set_api_key_av key w).1).2
      = false) /\
  (forall w path line,
      key_files w !! expanduser home path = Some line ->
      fails_assertion
        (download_shareprices_intraday web tickers interval sleep
           (load_api_key_av home path w).1).2
      = false).
Proof.
  split; [reflexivity |]. split; [| split].
  - intros w Hkey. unfold download_shareprices_intraday. rewrite bind_run. unfold get.
    cbn beta iota. rewrite Hkey. reflexivity.
  - intros w key.
    destruct (download_with_key web tickers interval sleep (set_api_key_av key w).1 key eq_refl)
      as [w' ->].
    reflexivity.
  - intros w path line Hline.
    assert (Hset : _api_key_av (load_api_key_av home path w).1 = Some (strip line)).
    { unfold load_api_key_av. rewrite bind_run. unfold get. cbn beta iota.
      rewrite Hline. reflexivity. }
    destruct (download_with_key web tickers interval sleep _ _ Hset) as [w' ->].
    reflexivity.
Qed.

Lemma download_needs_api_key_witness :
  download_shareprices_intraday sample_web (Several ["WMT"; "XOM"]) "5min" true fresh_world
  = (fresh_world, Raise (AssertionError "You need to set an API key for Alpha Vantage")) /\
  fails_assertion
    (download_shareprices_intraday sample_web (Several ["WMT"; "XOM"]) "5min" true
       (load_api_key_av "/home/user" "~/alphavantage_api_key.txt" fresh_world).1).2
  = false.
Proof.
  destruct (download_needs_api_key "/home/user" sample_web (Several ["WMT"; "XOM"]) "5min" true)
    as (_ & Hnone & _ & Hload).
  split.
  - apply (Hnone fresh_world). reflexivity.
  - apply (Hload fresh_world "~/alphavantage_api_key.txt" "  demo "). vm_compute. reflexivity.
Defined.

(** What the download does once the key is loaded: two requests, one
    file written for the ticker the server knows, one pause between the
    two tickers. *)
Example download_wmt_xom :
  let w := (load_api_key_av "/home/user" "~/alphavantage_api_key.txt" fresh_world).1 in
  let w' := (download_shareprices_intraday sample_web (Several ["WMT"; "XOM"]) "5min" true w).1 in
  _api_key_av w = Some "demo" /\
  length (requested w') = 2%nat /\
  files w' !! _path_shareprices_intraday "WMT" "5min" = Some (Table wmt_intraday) /\
  files w' !! _path_shareprices_intraday "XOM" "5min" = None /\
  printed w' = [ "- Downloading 5min share-prices for WMT ... "; "Done!";
                 "- Downloading 5min share-prices for XOM ... "; "Error 404" ] /\
  slept w' = [13%Z].
Proof. vm_compute. repeat split; reflexivity. Qed.

(** ** What the assemblers would return with the column keys bound *)

Lemma lift_returns {S A} (r : result A) (s s' : S) (a : A) :
  lift r s = (s', Ok a) -> s' = s /\ r = Ok a.
Proof. unfold lift. intros H. injection H as <- ->. split; reflexivity. Qed.

Lemma global_returns (G : gmap string string) name k k' :
  G !! name = Some k -> global G name = Ok k' -> k' = k.
Proof. unfold global. intros ->. congruence. Qed.

Lemma find_replaced k col (cols : list (string * list value)) :
  has_label k cols = true ->
  List.find (fun kc => bool_decide (kc.1 = k))
            (List.map (fun kc => if bool_decide (kc.1 = k) then (kc.1, col) else kc) cols)
  = Some (k, col).
Proof.
  unfold has_label. induction cols as [|[k0 c] cols IH]; [discriminate |].
  cbn [existsb List.map fst]. destruct (decide (k0 = k)) as [->|E0].
  - intros _. rewrite bool_decide_eq_true_2 by reflexivity. cbn [List.find fst].
    rewrite bool_decide_eq_true_2 by reflexivity. reflexivity.
  - rewrite (bool_decide_eq_false_2 (k0 = k)) by exact E0. cbn [orb List.find fst].
    rewrite (bool_decide_eq_false_2 (k0 = k)) by exact E0. exact IH.
Qed.

Lemma find_appended k col (cols : list (string * list value)) :
  has_label k cols = false ->
  List.find (fun kc => bool_decide (kc.1 = k)) (cols ++ [(k, col)]) = Some (k, col).
Proof.
  unfold has_label. induction cols as [|[k0 c] cols IH].
  - intros _. cbn. rewrite bool_decide_eq_true_2 by reflexivity. reflexivity.
  - cbn [existsb app List.find fst]. destruct (bool_decide (k0 = k)); [discriminate |].
    exact IH.
Qed.

(** Reading back the column just assigned. *)
Lemma getitem_setitem_same df k col : getitem (setitem df k col) k = Ok col.
Proof.
  unfold getitem, setitem. cbn [columns].
  destruct (has_label k (columns df)) eqn:E.
  - rewrite find_replaced by exact E. reflexivity.
  - rewrite find_appended by exact E. reflexivity.
Qed.

Lemma getitem_setitem_other df k k' col :
  k' <> k -> getitem (setitem df k col) k' = getitem df k'.
Proof.
  intros Hne. destruct (frame_setitem (fun x => x = k) df k col eq_refl) as (_ & _ & _ & H).
  apply H. exact Hne.
Qed.

Lemma assign_ratio_returns G target num den kt kn kd df df' u :
  G !! target = Some kt -> G !! num = Some kn -> G !! den = Some kd ->
  assign_ratio G target num den df = (df', Ok u) ->
  exists a b,
    getitem df kn = Ok a /\ getitem df kd = Ok b /\ df' = setitem df kt (div_columns a b).
Proof.
  intros Ht Hn Hd H. unfold assign_ratio in H.
  apply bind_returns in H. destruct H as (s1 & kn' & H1 & H).
  apply lift_returns in H1. destruct H1 as [-> H1]. apply (global_returns _ _ _ _ Hn) in H1. subst kn'.
  apply bind_returns in H. destruct H as (s2 & a & H2 & H).
  unfold column in H2. injection H2 as <- Ha.
  apply bind_returns in H. destruct H as (s3 & kd' & H3 & H).
  apply lift_returns in H3. destruct H3 as [-> H3]. apply (global_returns _ _ _ _ Hd) in H3. subst kd'.
  apply bind_returns in H. destruct H as (s4 & b & H4 & H).
  unfold column in H4. injection H4 as <- Hb.
  apply bind_returns in H. destruct H as (s5 & kt' & H5 & H).
  apply lift_returns in H5. destruct H5 as [-> H5]. apply (global_returns _ _ _ _ Ht) in H5. subst kt'.
  unfold assign in H. injection H as <-.
  exists a, b. repeat split; assumption.
Qed.

(** The earnings enricher, asked for the profit margin, leaves a column
    that is the quotient, cell by cell, of the earnings column by the
    sales column. *)
Lemma earnings_enricher_profit_margin G fs ticker pm eps sps df df' u :
  G !! "PROFIT_MARGIN" = Some pm ->
  G !! "EARNINGS_PER_SHARE" = Some eps ->
  G !! "SALES_PER_SHARE" = Some sps ->
  pm <> eps -> pm <> sps ->
  _load_earnings_per_share G fs ticker true df = (df', Ok u) ->
  exists e s,
    getitem df' eps = Ok e /\ getitem df' sps = Ok s /\ getitem df' pm = Ok (div_columns e s).
Proof.
  intros Hpm Heps Hsps Hne1 Hne2 H. unfold _load_earnings_per_share in H.
  apply bind_returns in H. destruct H as (s1 & loaded & _ & H).
  apply bind_returns in H. destruct H as (s2 & [] & _ & H).
  apply bind_returns in H. destruct H as (s3 & [] & _ & H).
  cbn [when] in H.
  destruct (assign_ratio_returns _ _ _ _ _ _ _ _ _ _ Hpm Heps Hsps H) as (e & s & He & Hs & ->).
  exists e, s. split; [| split].
  - rewrite getitem_setitem_other by congruence. exact He.
  - rewrite getitem_setitem_other by congruence. exact Hs.
  - apply getitem_setitem_same.
Qed.

(** With the column keys bound to labels that the later enrichers do not
    assign, a table returned by the stock assembler for [sales=True,
    earnings=True] has a profit-margin column equal, cell by cell, to its
    earnings column divided by its sales column. *)
Lemma load_stock_data_profit_margin G fs ticker book_value dividend_TTM pm eps sps df :
  G !! "PROFIT_MARGIN" = Some pm ->
  G !! "EARNINGS_PER_SHARE" = Some eps ->
  G !! "SALES_PER_SHARE" = Some sps ->
  pm <> eps -> pm <> sps ->
  (forall k, In k [pm; eps; sps] -> ~ bound_to G book_value_keys k) ->
  (forall k, In k [pm; eps; sps] -> ~ bound_to G dividend_keys k) ->
  load_stock_data G fs ticker true true book_value dividend_TTM = Ok df ->
  exists e s,
    getitem df eps = Ok e /\ getitem df sps = Ok s /\ getitem df pm = Ok (div_columns e s).
Proof.
  intros Hpm Heps Hsps Hne1 Hne2 Hbv Hdv H. unfold load_stock_data in H.
  destruct (_load_price_yahoo G fs ticker) as [p|]; [| discriminate].
  cbn [mbind result_bind] in H.
  destruct (global G "SHARE_PRICE") as [k|]; [| discriminate].
  cbn [mbind result_bind] in H.
  destruct (dropna p k) as [df0|]; [| discriminate].
  cbn [mbind result_bind] in H.
  apply enriched_returns in H.
  apply bind_returns in H. destruct H as (df1 & [] & _ & H).
  apply bind_returns in H. destruct H as (df2 & [] & H2 & H).
  apply bind_returns in H. destruct H as (df3 & [] & H3 & H4).
  cbn [when] in H2.
  destruct (earnings_enricher_profit_margin _ _ _ _ _ _ _ _ _ Hpm Heps Hsps Hne1 Hne2 H2)
    as (e & s & He & Hs & Hq).
  pose proof (keeps_when _ (frame_refl _) book_value _
                (book_value_enricher_frame G fs ticker) df2) as F3.
  rewrite H3 in F3. cbn [fst] in F3. destruct F3 as (_ & _ & _ & F3).
  pose proof (keeps_when _ (frame_refl _) dividend_TTM _
                (dividend_enricher_frame G fs ticker) df3) as F4.
  rewrite H4 in F4. cbn [fst] in F4. destruct F4 as (_ & _ & _ & F4).
  exists e, s. split; [| split].
  - rewrite F4, F3 by (first [apply Hbv | apply Hdv]; cbn; tauto). exact He.
  - rewrite F4, F3 by (first [apply Hbv | apply Hdv]; cbn; tauto). exact Hs.
  - rewrite F4, F3 by (first [apply Hbv | apply Hdv]; cbn; tauto). exact Hq.
Qed.

Example load_stock_data_wmt_profit_margin :
  match load_stock_data completed_keys wmt_files "WMT" true true true false with
  | Ok df =>
      getitem df "Profit Margin"
      = (e ← getitem df "Earnings Per Share"; s ← getitem df "Sales Per Share";
         Ok (div_columns e s))
      /\ is_raise (getitem df "Profit Margin") = false
  | Raise _ => False
  end.
Proof. vm_compute. split; reflexivity. Qed.

(** ** What the intraday loader keeps, under any binding of the names *)

Lemma dict_set_In {V} (d : list (string * V)) k v k' v' :
  NoDup d.*1 ->
  In (k', v') (dict_set d k v) <-> (k' = k /\ v' = v) \/ (k' <> k /\ In (k', v') d).
Proof.
  induction d as [|[k0 v0] d IH]; intros Hnd.
  - cbn. split.
    + intros [H|[]]. injection H as <- <-. left. split; reflexivity.
    + intros [[-> ->]|[_ []]]. left. reflexivity.
  - cbn [dict_set]. apply NoDup_cons in Hnd. destruct Hnd as [Hk0 Hnd]. cbn [fst] in Hk0.
    case_bool_decide as E.
    + subst k0. split.
      * intros [H|H]; [injection H as <- <-; left; split; reflexivity |].
        right. split; [| right; exact H].
        intros ->. apply Hk0. change k with ((k, v').1).
        apply list_elem_of_fmap_2, list_elem_of_In, H.
      * intros [[-> ->]|[Hne [H|H]]]; [left; reflexivity | | right; exact H].
        injection H as <- <-. congruence.
    + split.
      * intros [H|H]; [injection H as <- <-; right; split; [congruence | left; reflexivity] |].
        apply IH in H; [| exact Hnd].
        destruct H as [H|[Hne H]]; [left; exact H | right; split; [exact Hne | right; exact H]].
      * intros [[-> ->]|[Hne [H|H]]].
        -- right. apply IH; [exact Hnd | left; split; reflexivity].
        -- left. exact H.
        -- right. apply IH; [exact Hnd | right; split; assumption].
Qed.

Lemma dict_set_keys {V} (d : list (string * V)) k v k' :
  In k' (dict_set d k v).*1 <-> k' = k \/ In k' d.*1.
Proof.
  induction d as [|[k0 v0] d IH].
  - cbn. intuition congruence.
  - cbn [dict_set]. case_bool_decide as E.
    + subst k0. cbn. intuition congruence.
    + cbn [fmap list_fmap fst] in *. cbn [In]. rewrite IH. tauto.
Qed.

Lemma dict_set_NoDup {V} (d : list (string * V)) k v : NoDup d.*1 -> NoDup (dict_set d k v).*1.
Proof.
  induction d as [|[k0 v0] d IH]; intros Hnd.
  - cbn. apply NoDup_singleton.
  - cbn [dict_set]. apply NoDup_cons in Hnd. destruct Hnd as [Hk0 Hnd]. cbn [fst] in Hk0.
    case_bool_decide as E.
    + subst k0. cbn. apply NoDup_cons. split; assumption.
    + cbn [fmap list_fmap fst]. apply NoDup_cons. split; [| apply IH; exact Hnd].
      intros Hin. apply list_elem_of_In, dict_set_keys in Hin.
      destruct Hin as [->|Hin]; [congruence |]. apply Hk0, list_elem_of_In, Hin.
Qed.

(** The dictionary built by the loop holds exactly the tickers whose
    [try] block ran to its end, each with the table it loaded. *)
Lemma load_all_intraday_spec G fs interval tickers :
  forall df_dict,
    NoDup df_dict.*1 ->
    (forall t df, In (t, df) df_dict -> load_one_intraday G fs t interval = Ok df) ->
    forall t df,
      In (t, df) (load_all_intraday G fs tickers interval df_dict)
      <-> In (t, df) df_dict \/ (In t tickers /\ load_one_intraday G fs t interval = Ok df).
Proof.
  induction tickers as [|t0 ts IH]; intros acc Hnd Hacc t df.
  - cbn. tauto.
  - cbn [load_all_intraday].
    destruct (load_one_intraday G fs t0 interval) as [d0|e] eqn:E0.
    + rewrite IH.
      * rewrite dict_set_In by exact Hnd. cbn [In]. split.
        -- intros [[[-> ->]|[_ H]]|[H1 H2]]; [right | left | right]; auto.
        -- intros [H|[[<-|H1] H2]].
           ++ destruct (decide (t = t0)) as [->|Hne]; [| left; right; split; assumption].
              left. left. split; [reflexivity |]. apply Hacc in H. congruence.
           ++ left. left. split; [reflexivity | congruence].
           ++ right. split; assumption.
      * apply dict_set_NoDup. exact Hnd.
      * intros t' df' H. apply dict_set_In in H; [| exact Hnd].
        destruct H as [[-> ->]|[_ H]]; [exact E0 | apply Hacc, H].
    + rewrite IH by assumption. cbn [In]. split.
      * intros [H|[H1 H2]]; [left | right]; auto.
      * intros [H|[[<-|H1] H2]]; [left; exact H | congruence | right; split; assumption].
Qed.

(** Best effort, under any binding of the names: when the [try] block
    runs to its end for at least one ticker, the call returns the blocks
    of exactly the tickers for which it did; when it does for none, the
    call raises ValueError. *)
Lemma load_shareprices_intraday_best_effort G fs tickers interval :
  ((exists t, In t (as_list tickers) /\ is_raise (load_one_intraday G fs t interval) = false) ->
   exists blocks,
     load_shareprices_intraday G fs tickers interval = Ok blocks /\
     forall t df,
       In (t, df) blocks
       <-> In t (as_list tickers) /\ load_one_intraday G fs t interval = Ok df) /\
  ((forall t, In t (as_list tickers) -> is_raise (load_one_intraday G fs t interval) = true) ->
   load_shareprices_intraday G fs tickers interval
   = Raise (ValueError "No objects to concatenate")).
Proof.
  pose proof (load_all_intraday_spec G fs interval (as_list tickers) [] (NoDup_nil_2)
                (fun t df (H : In (t, df) []) => match H with end)) as Hspec.
  unfold load_shareprices_intraday, concat_rows.
  destruct (load_all_intraday G fs (as_list tickers) interval []) as [|b blocks] eqn:E.
  - split; [| reflexivity].
    intros (t & Hin & Hok). exfalso.
    destruct (load_one_intraday G fs t interval) as [df|] eqn:Et; [| discriminate].
    apply (proj2 (Hspec t df)). right. split; [exact Hin | exact Et].
  - split.
    + intros _. exists (b :: blocks). split; [reflexivity |].
      intros t df. rewrite Hspec. cbn [In]. tauto.
    + intros Hall. exfalso. destruct b as [t df].
      destruct (proj1 (Hspec t df) (or_introl eq_refl)) as [[]|[Hin Hok]].
      specialize (Hall t Hin). rewrite Hok in Hall. discriminate.
Qed.

Example load_shareprices_intraday_wmt_completed :
  load_shareprices_intraday completed_keys wmt_files (Several ["XOM"; "WMT"]) "5min"
  = Ok [ ("WMT",
          {| index := [0; 5]%Z;
             columns :=
               [ ("Open", [Some 10%Q; Some 11%Q]); ("High", [Some 11%Q; Some 12%Q]);
                 ("Low", [Some 9%Q; Some 10%Q]); ("Close", [Some 11%Q; Some 11%Q]);
                 ("Volume", [Some 500%Q; Some 300%Q]) ] |}) ] /\
  load_shareprices_intraday completed_keys wmt_files (Several ["XOM"]) "5min"
  = Raise (ValueError "No objects to concatenate").
Proof. vm_compute. split; reflexivity. Qed.

(** ** What the price loader would return with its two keys bound *)

Lemma rename_columns mapping df :
  columns (rename mapping df)
  = List.map (fun kc => (renamed_label mapping kc.1, kc.2)) (columns df).
Proof.
  unfold rename, renamed_label. cbn [columns]. apply List.map_ext. intros [l c]. cbn [fst snd].
  destruct (List.find _ mapping); reflexivity.
Qed.

Lemma filter_relabelled_none (g : string -> string) target (cols : list (string * list value)) :
  (forall l, In l cols.*1 -> g l <> target) ->
  List.filter (fun kc => bool_decide (kc.1 = target))
              (List.map (fun kc => (g kc.1, kc.2)) cols) = [].
Proof.
  induction cols as [|[l c] cols IH]; intros H; [reflexivity |].
  cbn [List.map List.filter fst snd].
  rewrite bool_decide_eq_false_2 by (apply H; left; reflexivity).
  apply IH. intros l' Hl'. apply H. right. exact Hl'.
Qed.

(** Selecting a label after a relabelling finds the one column that was
    relabelled to it. *)
Lemma filter_relabelled_one (g : string -> string) source target c
      (cols : list (string * list value)) :
  NoDup cols.*1 ->
  List.find (fun kc => bool_decide (kc.1 = source)) cols = Some (source, c) ->
  g source = target ->
  (forall l, In l cols.*1 -> l <> source -> g l <> target) ->
  List.filter (fun kc => bool_decide (kc.1 = target))
              (List.map (fun kc => (g kc.1, kc.2)) cols) = [(target, c)].
Proof.
  induction cols as [|[l0 c0] cols IH]; intros Hnd Hfind Hg Hother; [discriminate |].
  apply NoDup_cons in Hnd. destruct Hnd as [Hl0 Hnd].
  cbn [List.map List.filter List.find fst snd] in *.
  destruct (decide (l0 = source)) as [->|Hne].
  - rewrite bool_decide_eq_true_2 in Hfind by reflexivity. injection Hfind as ->.
    rewrite bool_decide_eq_true_2 by exact Hg. rewrite Hg. f_equal.
    apply filter_relabelled_none. intros l Hl. apply Hother; [right; exact Hl |].
    intros ->. apply Hl0, list_elem_of_In, Hl.
  - rewrite bool_decide_eq_false_2 in Hfind by exact Hne.
    rewrite bool_decide_eq_false_2 by (apply Hother; [left; reflexivity | exact Hne]).
    apply IH; [exact Hnd | exact Hfind | exact Hg |].
    intros l Hl. apply Hother. right. exact Hl.
Qed.

Lemma getitem_find df k c :
  getitem df k = Ok c -> List.find (fun kc => bool_decide (kc.1 = k)) (columns df) = Some (k, c).
Proof.
  unfold getitem. destruct (List.find _ (columns df)) as [[k' c']|] eqn:E; [| discriminate].
  intros H. injection H as <-. apply find_some in E. destruct E as [_ E].
  apply bool_decide_eq_true in E. cbn in E. subst. reflexivity.
Qed.

(** With TOTAL_RETURN and SHARE_PRICE bound to two different labels that
    no other column of the file carries, the price loader returns the
    resampled table of exactly two columns: the file's 'Adj Close' under
    the label of TOTAL_RETURN and the file's 'Close' under the label of
    SHARE_PRICE. *)
Lemma load_price_yahoo_columns G fs ticker raw tr sp adj close :
  G !! "TOTAL_RETURN" = Some tr ->
  G !! "SHARE_PRICE" = Some sp ->
  tr <> sp ->
  read_csv fs (data_file ticker " Share-Price (Yahoo).csv") = Ok raw ->
  NoDup (labels raw) ->
  getitem raw "Adj Close" = Ok adj ->
  getitem raw "Close" = Ok close ->
  (forall l, In l (labels raw) -> l <> "Adj Close" -> l <> "Close" -> l <> tr /\ l <> sp) ->
  _load_price_yahoo G fs ticker
  = _resample_daily {| index := index raw; columns := [(tr, adj); (sp, close)] |}.
Proof.
  intros Htr Hsp Hne Hread Hnd Hadj Hclose Hother.
  unfold _load_price_yahoo. fold (data_file ticker " Share-Price (Yahoo).csv").
  rewrite Hread. unfold global. rewrite Htr, Hsp. cbn [mbind result_bind].
  unfold select. rewrite rename_columns. cbn [select_columns].
  set (g := renamed_label [("Adj Close", tr); ("Close", sp)]).
  assert (Hg : forall l, l <> "Adj Close" -> l <> "Close" -> g l = l).
  { intros l H1 H2. unfold g, renamed_label. cbn [List.find fst snd].
    rewrite !bool_decide_eq_false_2 by congruence. reflexivity. }
  rewrite (filter_relabelled_one g "Adj Close" tr adj).
  - rewrite (filter_relabelled_one g "Close" sp close).
    + reflexivity.
    + exact Hnd.
    + apply getitem_find. exact Hclose.
    + reflexivity.
    + intros l Hl Hl1. destruct (decide (l = "Adj Close")) as [->|Hl2].
      * unfold g. vm_compute. congruence.
      * rewrite Hg by assumption. apply (Hother l Hl Hl2 Hl1).
  - exact Hnd.
  - apply getitem_find. exact Hadj.
  - reflexivity.
  - intros l Hl Hl1. destruct (decide (l = "Close")) as [->|Hl2].
    + unfold g. vm_compute. congruence.
    + rewrite Hg by assumption. apply (Hother l Hl Hl1 Hl2).
Qed.

(** The resampler keeps the labels, in their order. *)
Lemma resample_daily_labels data out : _resample_daily data = Ok out -> labels out = labels data.
Proof.
  unfold _resample_daily. destruct (index data); [intros H; injection H as <-; reflexivity |].
  destruct (bool_decide _); [| discriminate]. intros H. injection H as <-.
  unfold labels. cbn [columns]. induction (columns data) as [|[k c] cols IH]; [reflexivity |].
  cbn [List.map fmap list_fmap fst] in *. f_equal. exact IH.
Qed.

(** * Further properties of the code *)

(** ** The storage calculator *)

(** X1.  [calculate_storage] returns the least multiple of the block size
    4096 that is not below the file size, for every integer file size. *)
Theorem calculate_storage_least_multiple (filesize : Z) :
  (exists blocks, calculate_storage filesize = 4096 * blocks)%Z /\
  (filesize <= calculate_storage filesize < filesize + 4096)%Z /\
  (forall blocks, (filesize <= 4096 * blocks)%Z ->
                  (calculate_storage filesize <= 4096 * blocks)%Z).
Proof.
  unfold calculate_storage. cbv zeta.
  pose proof (Z.div_mod filesize 4096 ltac:(lia)) as Hdm.
  pose proof (Z.mod_pos_bound filesize 4096 ltac:(lia)) as Hb.
  destruct (filesize mod 4096 >? 0)%Z eqn:E.
  - apply Z.gtb_lt in E. split; [eexists; reflexivity |]. split; [lia |].
    intros blocks H. assert (filesize / 4096 < blocks)%Z by nia. nia.
  - assert (filesize mod 4096 = 0)%Z by (pose proof (Zgt_cases (filesize mod 4096) 0); rewrite E in *; lia).
    split; [exists (filesize / 4096)%Z; lia |]. split; [lia |].
    intros blocks H0. nia.
Qed.

Lemma calculate_storage_least_multiple_witness :
  calculate_storage 4097 = 8192%Z /\ (calculate_storage 4097 <= 4096 * 3)%Z.
Proof.
  split; [reflexivity |].
  apply (proj2 (proj2 (calculate_storage_least_multiple 4097)) 3%Z). lia.
Defined.

(** ** More on the daily resampler *)

Lemma calendar_In lo n d : (lo <= d < lo + Z.of_nat n)%Z -> In d (calendar lo n).
Proof.
  intros H. unfold calendar. apply in_map_iff. exists (Z.to_nat (d - lo)).
  split; [lia | apply in_seq; lia].
Qed.

Lemma date_range_In lo hi d : In d (date_range lo hi) <-> (lo <= d <= hi)%Z.
Proof.
  rewrite date_range_calendar. split.
  - intros H. apply calendar_bounds in H. lia.
  - intros H. apply calendar_In. lia.
Qed.

Lemma fold_min_In (d0 : Z) rest : In (fold_right Z.min d0 rest) (d0 :: rest).
Proof.
  induction rest as [|x rest IH]; [left; reflexivity |]. cbn [fold_right].
  destruct (Z.min_spec x (fold_right Z.min d0 rest)) as [[_ ->]|[_ ->]].
  - right. left. reflexivity.
  - destruct IH as [H|H]; [left; exact H | right; right; exact H].
Qed.

Lemma fold_max_In (d0 : Z) rest : In (fold_right Z.max d0 rest) (d0 :: rest).
Proof.
  induction rest as [|x rest IH]; [left; reflexivity |]. cbn [fold_right].
  destruct (Z.max_spec x (fold_right Z.max d0 rest)) as [[_ ->]|[_ ->]].
  - destruct IH as [H|H]; [left; exact H | right; right; exact H].
  - right. left. reflexivity.
Qed.

Lemma at_stamp_In idx col d q : at_stamp idx col d = Some q -> In d idx.
Proof.
  revert col. induction idx as [|i idx IH]; intros [|v col] H; try discriminate.
  cbn in H. case_bool_decide as E; [left; exact E | right; eapply IH; exact H].
Qed.

Lemma at_stamp_map days (f : Z -> value) d :
  In d days -> at_stamp days (List.map f days) d = f d.
Proof.
  induction days as [|x days IH]; [intros [] |]. intros Hin. cbn [List.map at_stamp].
  case_bool_decide as E; [subst; reflexivity |].
  apply IH. destruct Hin as [H|H]; [congruence | exact H].
Qed.

(** The interpolation never alters a number. *)
Lemma at_stamp_interpolate_from idx col prev d q :
  at_stamp idx col d = Some q -> at_stamp idx (interpolate_from prev col) d = Some q.
Proof.
  revert col prev. induction idx as [|i idx IH]; intros [|[v|] col] prev H; try discriminate.
  - cbn in *. case_bool_decide; [exact H | apply IH; exact H].
  - cbn [interpolate_from]. cbn [at_stamp] in H.
    destruct prev as [[p j]|]; cbn [at_stamp]; case_bool_decide; try discriminate;
      apply IH; exact H.
Qed.

(** The shape of an accepted resampling. *)
Lemma resample_daily_shape data out d0 rest :
  index data = d0 :: rest ->
  _resample_daily data = Ok out ->
  NoDup (index data) /\
  out = {| index := date_range (fold_right Z.min d0 rest) (fold_right Z.max d0 rest);
           columns :=
             List.map (fun kc => (kc.1, interpolate (reindex (index data) kc.2
                         (date_range (fold_right Z.min d0 rest) (fold_right Z.max d0 rest)))))
                      (columns data) |}.
Proof.
  intros Hidx H. unfold _resample_daily in H. rewrite Hidx in H.
  case_bool_decide as Hnd; [| discriminate]. injection H as <-.
  rewrite Hidx. split; [exact Hnd | reflexivity].
Qed.

Lemma resample_daily_known
      (data out : DataFrame) (n : nat) (k : string) (col : list value) (d : Z) (q : Q) :
  _resample_daily data = Ok out ->
  columns data !! n = Some (k, col) ->
  at_stamp (index data) col d = Some q ->
  exists col', columns out !! n = Some (k, col') /\ at_stamp (index out) col' d = Some q.
Proof.
  intros Hres Hcol Hat.
  pose proof (at_stamp_In _ _ _ _ Hat) as Hin.
  destruct (index data) as [|d0 rest] eqn:Hidx; [destruct Hin |].
  destruct (resample_daily_shape _ _ _ _ Hidx Hres) as [Hnd ->]. cbn [index columns].
  eexists. split; [rewrite lookup_map, Hcol; reflexivity |]. cbn [fst snd].
  apply at_stamp_interpolate_from. unfold reindex. rewrite at_stamp_map.
  - rewrite Hidx. exact Hat.
  - apply date_range_In. split; [apply fold_min_le | apply fold_max_ge]; exact Hin.
Qed.

(** X2.  Resampling keeps every known point: a number that a column of
    the source holds at a stamp is the number the resampled column holds
    at that stamp. *)
Theorem resample_daily_keeps_known
        (data out : DataFrame) (n : nat) (k : string) (col : list value) (d : Z) (q : Q) :
  _resample_daily data = Ok out ->
  columns data !! n = Some (k, col) ->
  at_stamp (index data) col d = Some q ->
  exists col', columns out !! n = Some (k, col') /\ at_stamp (index out) col' d = Some q.
Proof. apply resample_daily_known. Qed.

Lemma resample_daily_keeps_known_witness :
  exists out col',
    _resample_daily quarterly_pair = Ok out /\
    columns out !! 0%nat = Some ("Book-Value Per Share", col') /\
    at_stamp (index out) col' 5 = Some 7%Q.
Proof.
  destruct (_resample_daily quarterly_pair) as [out|] eqn:E; [| vm_compute in E; discriminate].
  destruct (resample_daily_keeps_known quarterly_pair out 0 "Book-Value Per Share"
              [Some 4%Q; Some 7%Q; Some 8%Q] 5 7 E eq_refl eq_refl) as (col' & H1 & H2).
  exists out, col'. split; [reflexivity | split; assumption].
Defined.

(** X3.  The resampled index of a table with rows is strictly increasing,
    holds exactly the days that lie between two stamps of the source (so
    every source stamp, every day in between, and no day before the
    earliest or after the latest), every resampled column has one cell
    per day, and the labels are those of the source in the same order. *)
Theorem resample_daily_calendar (data out : DataFrame) :
  index data <> [] ->
  _resample_daily data = Ok out ->
  StronglySorted Z.lt (index out) /\
  (forall x, In x (index out) <->
             exists a b, In a (index data) /\ In b (index data) /\ (a <= x <= b)%Z) /\
  Forall (fun kc => length kc.2 = length (index out)) (columns out) /\
  labels out = labels data.
Proof.
  intros Hne Hres. destruct (index data) as [|d0 rest] eqn:Hidx; [congruence |].
  pose proof (resample_daily_labels _ _ Hres) as Hlab.
  destruct (resample_daily_shape _ _ _ _ Hidx Hres) as [Hnd ->]. cbn [index columns].
  split; [rewrite date_range_calendar; apply calendar_sorted |].
  split; [| split; [| exact Hlab]].
  - intros x. rewrite date_range_In. split.
    + intros H. exists (fold_right Z.min d0 rest), (fold_right Z.max d0 rest).
      split; [apply fold_min_In | split; [apply fold_max_In | exact H]].
    + intros (a & b & Ha & Hb & H).
      pose proof (fold_min_le d0 rest a Ha). pose proof (fold_max_ge d0 rest b Hb). lia.
  - apply List.Forall_forall. intros kc Hin. apply in_map_iff in Hin.
    destruct Hin as (kc0 & <- & _). cbn [snd]. unfold interpolate, reindex.
    rewrite interpolate_from_length, length_map. reflexivity.
Qed.

Lemma resample_daily_calendar_witness :
  exists out,
    _resample_daily quarterly_pair = Ok out /\
    StronglySorted Z.lt (index out) /\
    (forall x, In x (index out) <->
               exists a b, In a [3; 5; 9]%Z /\ In b [3; 5; 9]%Z /\ (a <= x <= b)%Z) /\
    Forall (fun kc => length kc.2 = length (index out)) (columns out) /\
    labels out = ["Book-Value Per Share"].
Proof.
  eexists. split; [reflexivity |].
  apply (resample_daily_calendar quarterly_pair).
  - discriminate.
  - reflexivity.
Defined.

Lemma next_valid_gap m w rest :
  next_valid (replicate m None ++ Some w :: rest) = Some (S m, w).
Proof. induction m as [|m IH]; cbn; [reflexivity |]. rewrite IH. reflexivity. Qed.

(** Inside a run of NaNs between two numbers every cell lies on the line
    through them. *)
Lemma interpolate_from_gap m :
  forall j p w rest i,
    (i < m)%nat ->
    interpolate_from (Some (p, j)) (replicate m None ++ Some w :: rest) !! i
    = Some (Some (p + (w - p) * (inject_Z (Z.of_nat (j + i)) / inject_Z (Z.of_nat (j + m))))%Q).
Proof.
  induction m as [|m IH]; intros j p w rest i Hi; [lia |].
  cbn [replicate app interpolate_from]. rewrite next_valid_gap.
  destruct i as [|i].
  - cbn [lookup list_lookup]. rewrite Nat.add_0_r. reflexivity.
  - cbn [lookup list_lookup]. rewrite IH by lia.
    replace (S j + i)%nat with (j + S i)%nat by lia.
    replace (S j + m)%nat with (j + S m)%nat by lia. reflexivity.
Qed.

Lemma at_stamp_calendar a m :
  forall rest (cells : list value) i v,
    (i < m)%nat -> cells !! i = Some v ->
    at_stamp (calendar a m ++ rest) cells (a + Z.of_nat i) = v.
Proof.
  revert a. induction m as [|m IH]; intros a rest cells i v Hi Hv; [lia |].
  rewrite calendar_S. destruct cells as [|c cells]; [discriminate |].
  cbn [app at_stamp]. destruct i as [|i].
  - rewrite bool_decide_eq_true_2 by lia. cbn in Hv. congruence.
  - rewrite bool_decide_eq_false_2 by lia.
    replace (a + Z.of_nat (S i))%Z with (a + 1 + Z.of_nat i)%Z by lia.
    apply IH; [lia | exact Hv].
Qed.

(** X4.  Linear interpolation in a gap of any width: when two consecutive
    rows of a date-sorted source carry the stamps [d1 < d2] and the
    numbers [v1] and [v2], the resampled column holds at every day [d]
    strictly between them the number
    [v1 + (v2 - v1) * (d - d1) / (d2 - d1)]. *)
Theorem resample_daily_linear
        (data : DataFrame) (n i : nat) (k : string) (col : list value)
        (d1 d2 d : Z) (v1 v2 : Q) :
  StronglySorted Z.lt (index data) ->
  columns data !! n = Some (k, col) ->
  index data !! i = Some d1 ->
  index data !! S i = Some d2 ->
  col !! i = Some (Some v1) ->
  col !! S i = Some (Some v2) ->
  (d1 < d < d2)%Z ->
  exists out col' cell,
    _resample_daily data = Ok out /\
    columns out !! n = Some (k, col') /\
    at_stamp (index out) col' d = Some cell /\
    (cell == v1 + (v2 - v1) * (inject_Z (d - d1) / inject_Z (d2 - d1)))%Q.
Proof.
  intros Hs Hcol Hi1 Hi2 Hv1 Hv2 Hd.
  destruct (index data) as [|d0 rest] eqn:Hidx; [discriminate |].
  pose proof (sorted_NoDup _ Hs) as Hnd.
  destruct (last (d0 :: rest)) as [dn|] eqn:Hlast; [| apply last_None in Hlast; discriminate].
  assert (Hlo : (d0 <= d1)%Z).
  { pose proof (sorted_min _ _ Hs) as Hm. rewrite <- Hm.
    apply fold_min_le, list_elem_of_In. eapply list_elem_of_lookup_2. exact Hi1. }
  assert (Hhi : (d2 <= dn)%Z).
  { pose proof (sorted_max _ _ Hs) as Hm. rewrite Hlast in Hm. injection Hm as <-.
    apply fold_max_ge, list_elem_of_In. eapply list_elem_of_lookup_2. exact Hi2. }
  assert (Hgap : forall x, (d1 < x < d2)%Z -> ~ In x (d0 :: rest)).
  { intros x Hx Hin. apply list_elem_of_In, list_elem_of_lookup in Hin. destruct Hin as [j Hj].
    destruct (Nat.lt_total j i) as [Hlt|[->|Hgt]].
    - pose proof (sorted_lookup_lt _ _ _ _ _ Hs Hj Hi1 Hlt). lia.
    - rewrite Hi1 in Hj. injection Hj. lia.
    - destruct (Nat.eq_dec j (S i)) as [->|Hne].
      + rewrite Hi2 in Hj. injection Hj. lia.
      + assert (Hlt : (S i < j)%nat) by lia.
        pose proof (sorted_lookup_lt _ _ _ _ _ Hs Hi2 Hj Hlt). lia. }
  set (days := date_range d0 dn).
  set (m := Z.to_nat (d2 - d1 - 1)).
  set (f := at_stamp (d0 :: rest) col).
  exists {| index := days;
            columns := List.map (fun kc => (kc.1, interpolate (reindex (d0 :: rest) kc.2 days)))
                                (columns data) |}.
  exists (interpolate (List.map f days)).
  exists (v1 + (v2 - v1) * (inject_Z (Z.of_nat (1 + Z.to_nat (d - d1 - 1)))
                            / inject_Z (Z.of_nat (1 + m))))%Q.
  split; [| split; [| split]].
  - rewrite <- Hidx in Hs, Hlast. rewrite (resample_daily_sorted data d0 rest dn Hidx Hs Hlast).
    rewrite Hidx. reflexivity.
  - cbn [columns]. rewrite lookup_map, Hcol. reflexivity.
  - cbn [index].
    assert (Hdays : days = (date_range d0 (d1 - 1)
                            ++ d1 :: calendar (d1 + 1) m ++ d2 :: date_range (d2 + 1) dn)%list).
    { unfold days. rewrite (date_range_split d0 d1 dn) by lia. f_equal.
      rewrite (date_range_cons d1 dn) by lia. f_equal.
      rewrite (date_range_split (d1 + 1) d2 dn) by lia.
      rewrite (date_range_cons d2 dn) by lia. f_equal.
      rewrite date_range_calendar. unfold m. f_equal. lia. }
    assert (Hnone : List.map f (calendar (d1 + 1) m) = replicate m None).
    { assert (Hb : forall x, In x (calendar (d1 + 1) m) -> f x = None).
      { intros x Hx. apply calendar_bounds in Hx. unfold f. apply at_stamp_absent, Hgap. lia. }
      assert (Hl : length (calendar (d1 + 1) m) = m)
        by (unfold calendar; rewrite length_map, length_seq; reflexivity).
      revert Hb Hl. generalize (calendar (d1 + 1) m). generalize m. clear.
      intros m l. revert m.
      induction l as [|x l IH]; intros m Hb Hl; [subst; reflexivity |].
      destruct m as [|m]; [discriminate |]. cbn [List.map replicate].
      rewrite (Hb x (or_introl eq_refl)). f_equal. apply IH; [| cbn in Hl; lia].
      intros y Hy. apply Hb. right. exact Hy. }
    assert (Hcells : List.map f days
                     = (List.map f (date_range d0 (d1 - 1))
                        ++ Some v1 :: replicate m None
                        ++ Some v2 :: List.map f (date_range (d2 + 1) dn))%list).
    { rewrite Hdays, List.map_app. cbn [List.map]. rewrite List.map_app. cbn [List.map].
      rewrite Hnone. unfold f at 2 3. rewrite (at_stamp_lookup _ _ _ _ _ Hnd Hi1 Hv1).
      rewrite (at_stamp_lookup _ _ _ _ _ Hnd Hi2 Hv2). reflexivity. }
    unfold interpolate. rewrite Hcells.
    destruct (interpolate_from_app None (List.map f (date_range d0 (d1 - 1)))
                (Some v1 :: replicate m None ++ Some v2 :: List.map f (date_range (d2 + 1) dn)))
      as (o & Hlen & ->).
    cbn [interpolate_from]. rewrite Hdays.
    rewrite at_stamp_app.
    + cbn [at_stamp]. rewrite bool_decide_eq_false_2 by lia.
      replace d with (d1 + 1 + Z.of_nat (Z.to_nat (d - d1 - 1)))%Z at 1 by lia.
      apply at_stamp_calendar; [unfold m; lia |].
      apply interpolate_from_gap. unfold m. lia.
    + rewrite Hlen, length_map. reflexivity.
    + intros Hin. apply date_range_In in Hin. lia.
  - replace (Z.of_nat (1 + Z.to_nat (d - d1 - 1))) with (d - d1)%Z by lia.
    replace (Z.of_nat (1 + m)) with (d2 - d1)%Z by (unfold m; lia).
    reflexivity.
Qed.

Lemma resample_daily_linear_witness :
  exists out col' cell,
    _resample_daily quarterly_pair = Ok out /\
    columns out !! 0%nat = Some ("Book-Value Per Share", col') /\
    at_stamp (index out) col' 8 = Some cell /\
    (cell == 7 + (8 - 7) * (inject_Z (8 - 5) / inject_Z (9 - 5)))%Q.
Proof.
  apply (resample_daily_linear quarterly_pair 0 1 "Book-Value Per Share"
           [Some 4%Q; Some 7%Q; Some 8%Q] 5 9 8 7 8).
  - repeat constructor; lia.
  - reflexivity.
  - reflexivity.
  - reflexivity.
  - reflexivity.
  - reflexivity.
  - lia.
Defined.

(** X5.  Resampling is idempotent on everything it accepts: the result of
    a resampling is returned unchanged by a second resampling. *)
Theorem resample_daily_stable (data out : DataFrame) :
  _resample_daily data = Ok out -> _resample_daily out = Ok out.
Proof. apply resample_daily_twice. Qed.

Lemma resample_daily_stable_witness :
  exists out, _resample_daily quarterly_pair = Ok out /\ _resample_daily out = Ok out.
Proof.
  destruct (_resample_daily quarterly_pair) as [out|] eqn:E; [| vm_compute in E; discriminate].
  exists out. split; [reflexivity |].
  apply (resample_daily_stable quarterly_pair out). exact E.
Defined.

(** ** The bond-yield loader *)

Lemma keep_rows_length {A B} (mask : list bool) (l1 : list A) (l2 : list B) :
  length l1 = length l2 -> length (keep_rows mask l1) = length (keep_rows mask l2).
Proof.
  revert l1 l2. induction mask as [|b mask IH]; intros [|x l1] [|y l2] H;
    try discriminate; try reflexivity.
  cbn [keep_rows]. destruct b; cbn [length]; rewrite (IH l1 l2) by (cbn in H; lia); reflexivity.
Qed.

(** A kept row is found again, at the same position in the index and in
    every column. *)
Lemma keep_rows_lookup {A B} (mask : list bool) (l1 : list A) (l2 : list B) i x y :
  mask !! i = Some true -> l1 !! i = Some x -> l2 !! i = Some y ->
  exists j, keep_rows mask l1 !! j = Some x /\ keep_rows mask l2 !! j = Some y.
Proof.
  revert l1 l2 i. induction mask as [|b mask IH]; intros [|a l1] [|c l2] i Hm H1 H2;
    try discriminate.
  destruct i as [|i]; cbn in Hm, H1, H2.
  - injection Hm as ->. injection H1 as ->. injection H2 as ->. exists 0%nat. split; reflexivity.
  - destruct (IH l1 l2 i Hm H1 H2) as (j & Hj1 & Hj2). cbn [keep_rows].
    destruct b; [exists (S j) | exists j]; split; assumption.
Qed.

Lemma keep_rows_complete (g : nat -> bool) (col : list value) :
  forall s n,
    (forall i, g (s + i)%nat = true -> exists q, col !! i = Some (Some q)) ->
    Forall is_Some (keep_rows (List.map g (seq s n)) col).
Proof.
  induction col as [|v col IH]; intros s n Hg.
  - destruct n; cbn; constructor.
  - destruct n as [|n]; [constructor |]. cbn [seq List.map keep_rows].
    assert (Hrest : Forall is_Some (keep_rows (List.map g (seq (S s) n)) col)).
    { apply IH. intros i Hi. replace (S s + i)%nat with (s + S i)%nat in Hi by lia.
      destruct (Hg (S i) Hi) as [q Hq]. exists q. exact Hq. }
    destruct (g s) eqn:E; [| exact Hrest].
    constructor; [| exact Hrest].
    rewrite <- (Nat.add_0_r s) in E. destruct (Hg 0%nat E) as [q Hq].
    cbn in Hq. injection Hq as ->. eexists. reflexivity.
Qed.

Lemma complete_row_cell (cols : list (string * list value)) kc i :
  In kc cols -> complete_row cols i = true -> exists q, kc.2 !! i = Some (Some q).
Proof.
  intros Hin H. unfold complete_row in H. rewrite forallb_forall in H.
  specialize (H kc Hin). cbn beta in H.
  destruct (kc.2 !! i) as [[q|]|]; try discriminate. exists q. reflexivity.
Qed.

(** After [dropna] and the division every cell is a number and every
    column has one cell per row. *)
Lemma scaled_rows_defined (t : DataFrame) (c : Q) :
  Forall (fun kc => length kc.2 = length (index t)) (columns t) ->
  Forall (fun kc => length kc.2 = length (index (divide_by c (dropna_rows t)))
                    /\ Forall is_Some kc.2)
         (columns (divide_by c (dropna_rows t))).
Proof.
  intros Hwf. unfold divide_by, dropna_rows. cbn [index columns].
  rewrite List.map_map. apply List.Forall_forall. intros kc' Hin.
  apply in_map_iff in Hin. destruct Hin as (kc & <- & Hin). cbn [fst snd].
  rewrite List.Forall_forall in Hwf. specialize (Hwf kc Hin). split.
  - rewrite length_map. apply keep_rows_length. exact Hwf.
  - apply Forall_map.
    eapply Forall_impl;
      [apply (keep_rows_complete (complete_row (columns t)) kc.2 0 (length (index t))) |].
    + intros i Hi. cbn in Hi. apply (complete_row_cell _ kc i Hin Hi).
    + intros v [q ->]. eexists. reflexivity.
Qed.

Lemma at_stamp_defined idx (col : list value) d :
  length col = length idx -> Forall is_Some col -> In d idx -> is_Some (at_stamp idx col d).
Proof.
  revert col. induction idx as [|i idx IH]; intros [|v col] Hlen Hdef Hin;
    try discriminate; [destruct Hin |].
  apply Forall_cons in Hdef. destruct Hdef as [Hv Hdef]. cbn [at_stamp].
  case_bool_decide as E; [exact Hv |].
  apply IH; [cbn in Hlen; lia | exact Hdef | destruct Hin; [congruence | assumption]].
Qed.

(** A table without NaN resamples to a table without NaN. *)
Lemma resample_daily_defined data out :
  Forall (fun kc => length kc.2 = length (index data) /\ Forall is_Some kc.2) (columns data) ->
  _resample_daily data = Ok out ->
  Forall (fun kc => Forall is_Some kc.2) (columns out).
Proof.
  intros Hwf Hres. destruct (index data) as [|d0 rest] eqn:Hidx.
  - unfold _resample_daily in Hres. rewrite Hidx in Hres. injection Hres as <-.
    eapply Forall_impl; [exact Hwf |]. intros kc [_ H]. exact H.
  - destruct (resample_daily_shape _ _ _ _ Hidx Hres) as [Hnd ->]. cbn [columns].
    apply List.Forall_forall. intros kc' Hin. apply in_map_iff in Hin.
    destruct Hin as (kc & <- & Hin). cbn [snd].
    rewrite List.Forall_forall in Hwf. destruct (Hwf kc Hin) as [Hlen Hdef].
    pose proof (fold_min_le d0 rest _ (fold_max_In d0 rest)) as Hle.
    rewrite date_range_cons by exact Hle. unfold interpolate, reindex. cbn [List.map].
    rewrite Hidx.
    destruct (at_stamp_defined (d0 :: rest) kc.2 (fold_right Z.min d0 rest))
      as [v ->]; [exact Hlen | exact Hdef | apply fold_min_In |].
    cbn [interpolate_from]. constructor; [eexists; reflexivity | apply interpolate_from_seen].
Qed.

(** X6.  The bond-yield table has no NaN: for a file whose columns have
    one cell per row, every cell of the table that
    [load_usa_gov_bond_1year] returns is a number (rows with a missing
    value are dropped before the interpolation, which then fills their
    days). *)
Theorem bond_yields_defined (fs : gmap string file) (t out : DataFrame) :
  read_csv fs (os_path_join data_dir "USA Gov Bond Yield 1-Year.txt") = Ok t ->
  Forall (fun kc => length kc.2 = length (index t)) (columns t) ->
  load_usa_gov_bond_1year fs = Ok out ->
  Forall (fun kc => Forall is_Some kc.2) (columns out).
Proof.
  intros Hread Hwf Hload. unfold load_usa_gov_bond_1year, _load_data in Hload.
  rewrite Hread in Hload. cbn [mbind result_bind] in Hload.
  eapply resample_daily_defined; [| exact Hload].
  apply scaled_rows_defined. exact Hwf.
Qed.

Lemma bond_yields_defined_witness :
  exists out,
    load_usa_gov_bond_1year macro_files = Ok out /\
    Forall (fun kc => Forall is_Some kc.2) (columns out).
Proof.
  destruct (load_usa_gov_bond_1year macro_files) as [out|] eqn:E;
    [| vm_compute in E; discriminate].
  exists out. split; [reflexivity |].
  apply (bond_yields_defined macro_files bond_yields_raw out).
  - vm_compute. reflexivity.
  - repeat constructor.
  - exact E.
Defined.

(** X7.  The bond-yield loader divides by 100: a number [q] that the file
    holds at a stamp, in a row without missing values, is [q / 100] at
    that stamp in the returned table. *)
Theorem bond_yields_scaled
        (fs : gmap string file) (t out : DataFrame)
        (n i : nat) (k : string) (col : list value) (d : Z) (q : Q) :
  read_csv fs (os_path_join data_dir "USA Gov Bond Yield 1-Year.txt") = Ok t ->
  load_usa_gov_bond_1year fs = Ok out ->
  columns t !! n = Some (k, col) ->
  index t !! i = Some d ->
  col !! i = Some (Some q) ->
  complete_row (columns t) i = true ->
  exists col', columns out !! n = Some (k, col') /\
               at_stamp (index out) col' d = Some (q / 100)%Q.
Proof.
  intros Hread Hload Hcol Hd Hq Hrow. unfold load_usa_gov_bond_1year, _load_data in Hload.
  rewrite Hread in Hload. cbn [mbind result_bind] in Hload.
  set (mask := List.map (complete_row (columns t)) (seq 0 (length (index t)))).
  assert (Hmask : mask !! i = Some true).
  { unfold mask. rewrite lookup_map.
    assert (Hi : (i < length (index t))%nat) by (eapply lookup_lt_Some; exact Hd).
    rewrite lookup_seq_lt by exact Hi. cbn. rewrite Hrow. reflexivity. }
  destruct (keep_rows_lookup mask (index t) col i d (Some q) Hmask Hd Hq) as (j & Hj1 & Hj2).
  eapply (resample_daily_known _ out n k
            (List.map (fun v : value => match v with Some x => Some (x / 100)%Q | None => None end)
                      (keep_rows mask col)));
    [exact Hload | |].
  - unfold divide_by, dropna_rows. cbn [columns]. rewrite List.map_map, lookup_map, Hcol.
    reflexivity.
  - assert (Hnd : NoDup (index (divide_by 100 (dropna_rows t)))).
    { destruct (index (divide_by 100 (dropna_rows t))) as [|d0 rest] eqn:E; [constructor |].
      destruct (resample_daily_shape _ _ _ _ E Hload) as [Hnd _]. rewrite E in Hnd. exact Hnd. }
    eapply at_stamp_lookup; [exact Hnd | exact Hj1 |].
    rewrite lookup_map. fold mask. rewrite Hj2. reflexivity.
Qed.

Lemma bond_yields_scaled_witness :
  exists out col',
    load_usa_gov_bond_1year macro_files = Ok out /\
    columns out !! 0%nat = Some ("Yield", col') /\
    at_stamp (index out) col' 10 = Some ((7 # 2) / 100)%Q.
Proof.
  destruct (load_usa_gov_bond_1year macro_files) as [out|] eqn:E;
    [| vm_compute in E; discriminate].
  destruct (bond_yields_scaled macro_files bond_yields_raw out 0 0 "Yield"
              [Some (7 # 2)%Q; None; Some 4%Q; Some 3%Q] 10 (7 # 2))
    as (col' & H1 & H2).
  - vm_compute. reflexivity.
  - exact E.
  - reflexivity.
  - reflexivity.
  - reflexivity.
  - reflexivity.
  - exists out, col'. split; [reflexivity | split; assumption].
Defined.

(** ** The consumer-price loader *)

Lemma data_keys_CPI : global data_keys "CPI" = Ok "CPI".
Proof. vm_compute. reflexivity. Qed.

(** X8.  [load_usa_cpi] is the one loader whose key the registry binds.
    On the repository's registry: it passes on the reader's error; on a
    table that has neither a 'Value' nor a 'CPI' column it raises
    KeyError for 'CPI'; and on a table with distinct labels, a 'Value'
    column and no 'CPI' column it returns the resampling of that single
    column under the label 'CPI', all other columns dropped. *)
Theorem load_usa_cpi_data_keys (fs : gmap string file) :
  (forall e,
      read_csv fs (os_path_join data_dir "USA CPI.csv") = Raise e ->
      load_usa_cpi data_keys fs = Raise e) /\
  (forall t,
      read_csv fs (os_path_join data_dir "USA CPI.csv") = Ok t ->
      ~ In "Value" (labels t) -> ~ In "CPI" (labels t) ->
      load_usa_cpi data_keys fs = Raise (KeyError "CPI")) /\
  (forall t v,
      read_csv fs (os_path_join data_dir "USA CPI.csv") = Ok t ->
      NoDup (labels t) -> getitem t "Value" = Ok v -> ~ In "CPI" (labels t) ->
      load_usa_cpi data_keys fs
      = _resample_daily {| index := index t; columns := [("CPI", v)] |}).
Proof.
  split; [| split].
  - intros e H. unfold load_usa_cpi. rewrite H. reflexivity.
  - intros t H Hv Hc. unfold load_usa_cpi. rewrite H. cbn [mbind result_bind].
    rewrite data_keys_CPI. cbn [mbind result_bind]. unfold select.
    rewrite rename_columns. cbn [select_columns].
    rewrite filter_relabelled_none; [reflexivity |].
    intros l Hl. unfold renamed_label. cbn [List.find fst snd].
    rewrite bool_decide_eq_false_2 by (intros <-; apply Hv, Hl).
    intros ->. apply Hc, Hl.
  - intros t v H Hnd Hv Hc. unfold load_usa_cpi. rewrite H. cbn [mbind result_bind].
    rewrite data_keys_CPI. cbn [mbind result_bind]. unfold select.
    rewrite rename_columns. cbn [select_columns].
    rewrite (filter_relabelled_one (renamed_label [("Value", "CPI")]) "Value" "CPI" v).
    + reflexivity.
    + exact Hnd.
    + apply getitem_find. exact Hv.
    + reflexivity.
    + intros l Hl Hne. unfold renamed_label. cbn [List.find fst snd].
      rewrite bool_decide_eq_false_2 by congruence. intros ->. apply Hc, Hl.
Qed.

Lemma load_usa_cpi_data_keys_witness :
  load_usa_cpi data_keys wmt_files = Raise (FileNotFoundError "data/USA CPI.csv") /\
  load_usa_cpi data_keys
    (<[ os_path_join data_dir "USA CPI.csv" := Table wmt_sales ]> wmt_files)
  = Raise (KeyError "CPI") /\
  load_usa_cpi data_keys macro_files
  = _resample_daily {| index := [0; 2]%Z; columns := [("CPI", [Some 200%Q; Some 202%Q])] |}.
Proof.
  split; [| split].
  - apply (proj1 (load_usa_cpi_data_keys wmt_files)). vm_compute. reflexivity.
  - apply (proj1 (proj2 (load_usa_cpi_data_keys _)) wmt_sales).
    + vm_compute. reflexivity.
    + cbn. intros [H|[]]. discriminate H.
    + cbn. intros [H|[]]. discriminate H.
  - apply (proj2 (proj2 (load_usa_cpi_data_keys macro_files)) cpi_raw [Some 200%Q; Some 202%Q]).
    + vm_compute. reflexivity.
    + cbn. repeat constructor; [intros H; apply list_elem_of_In in H; cbn in H; destruct H as [H|[]]; discriminate H | intros H; inversion H].
    + reflexivity.
    + cbn. intros [H|[H|[]]]; discriminate H.
Defined.

(** ** The paths of the intraday files *)

Lemma length_append (s1 s2 : string) :
  String.length (s1 +:+ s2) = (String.length s1 + String.length s2)%nat.
Proof.
  induction s1 as [|c s1 IH]; [reflexivity |].
  change (S (String.length (s1 +:+ s2)) = S (String.length s1 + String.length s2)).
  f_equal. exact IH.
Qed.

Lemma append_inj_l (s1 s2 suffix : string) : s1 +:+ suffix = s2 +:+ suffix -> s1 = s2.
Proof.
  revert s2. induction s1 as [|c s1 IH]; intros [|c' s2] H.
  - reflexivity.
  - apply (f_equal String.length) in H.
    change (String.length suffix = S (String.length (s2 +:+ suffix))) in H.
    rewrite length_append in H. lia.
  - apply (f_equal String.length) in H.
    change (S (String.length (s1 +:+ suffix)) = String.length suffix) in H.
    rewrite length_append in H. lia.
  - change (String c (s1 +:+ suffix) = String c' (s2 +:+ suffix)) in H.
    injection H as -> H. f_equal. apply IH. exact H.
Qed.

Lemma os_path_join_intraday filename :
  os_path_join data_dir_intraday filename
  = if String.prefix "/" filename then filename else "data/intraday/" +:+ filename.
Proof. unfold os_path_join. destruct (String.prefix "/" filename); reflexivity. Qed.

Lemma prefix_slash_head s : String.prefix "/" s = true -> exists r, s = String "/"%char r.
Proof.
  destruct s as [|c r]; cbn [String.prefix]; [discriminate |].
  destruct (ascii_dec "/"%char c) as [<-|]; [eauto | discriminate].
Qed.

Lemma path_shareprices_intraday_eq (interval ticker1 ticker2 : string) :
  _path_shareprices_intraday ticker1 interval = _path_shareprices_intraday ticker2 interval ->
  ticker1 = ticker2.
Proof.
  unfold _path_shareprices_intraday. cbv zeta. rewrite !os_path_join_intraday.
  set (suffix := " Share-Price Intraday " +:+ interval +:+ " (AlphaVantage).csv").
  destruct (String.prefix "/" (ticker1 +:+ suffix)) eqn:E1;
    destruct (String.prefix "/" (ticker2 +:+ suffix)) eqn:E2; intros H.
  - apply (append_inj_l _ _ suffix H).
  - apply prefix_slash_head in E1. destruct E1 as [r E1]. rewrite E1 in H. discriminate H.
  - apply prefix_slash_head in E2. destruct E2 as [r E2]. rewrite E2 in H. discriminate H.
  - cbn in H. injection H as H. apply (append_inj_l _ _ suffix H).
Qed.

(** X9.  For a given interval, different tickers never share a data file:
    the paths that [_path_shareprices_intraday] gives two different
    tickers are different. *)
Theorem path_shareprices_intraday_inj (interval ticker1 ticker2 : string) :
  ticker1 <> ticker2 ->
  _path_shareprices_intraday ticker1 interval <> _path_shareprices_intraday ticker2 interval.
Proof. intros Hne H. apply Hne. eapply path_shareprices_intraday_eq. exact H. Qed.

Lemma path_shareprices_intraday_inj_witness :
  _path_shareprices_intraday "WMT" "5min" <> _path_shareprices_intraday "XOM" "5min".
Proof.
  apply (path_shareprices_intraday_inj "5min" "WMT" "XOM"). discriminate.
Defined.

Lemma prefix_empty s : String.prefix "" s = true.
Proof. destruct s; reflexivity. Qed.

Lemma prefix_slash_append c r x :
  String.prefix "/" (String c r +:+ x) = String.prefix "/" (String c r).
Proof.
  change (String c r +:+ x) with (String c (r +:+ x)). cbn [String.prefix].
  destruct (ascii_dec "/"%char c); [rewrite !prefix_empty |]; reflexivity.
Qed.

(** X10.  The data file of a ticker lies in the intraday directory unless
    the ticker begins with a slash, in which case [os.path.join] drops the
    directory and the path is the file name alone. *)
Theorem path_shareprices_intraday_directory (ticker interval : string) :
  _path_shareprices_intraday ticker interval
  = if String.prefix "/" ticker
    then ticker +:+ " Share-Price Intraday " +:+ interval +:+ " (AlphaVantage).csv"
    else data_dir_intraday +:+ ticker +:+ " Share-Price Intraday " +:+ interval
         +:+ " (AlphaVantage).csv".
Proof.
  unfold _path_shareprices_intraday. cbv zeta. rewrite os_path_join_intraday.
  destruct ticker as [|c r]; [reflexivity |].
  rewrite prefix_slash_append. destruct (String.prefix "/" (String c r)); reflexivity.
Qed.

(** ** What a download does to the world *)


















(** ** Edge cases of the common period *)

Lemma comprehension_first_stamp_empty dfs :
  Exists (fun df => index df = []) dfs ->
  comprehension first_stamp dfs = Raise IndexError.
Proof.
  induction 1 as [df dfs H|df dfs _ IH]; cbn [comprehension].
  - cbn beta in H.
    assert (E : first_stamp df = Raise IndexError) by (unfold first_stamp; rewrite H; reflexivity).
    rewrite E. reflexivity.
  - destruct (first_stamp df) as [d|e] eqn:E; cbn [mbind result_bind].
    + rewrite IH. reflexivity.
    + unfold first_stamp in E. destruct (index df); [| discriminate]. congruence.
Qed.

(** X15.  [common_period] does not guard its input: for an empty list it
    ends in numpy's ValueError for the maximum of nothing, and for a list
    with a table that has no rows it ends in IndexError; in both cases
    the tables are left as they were. *)
Theorem common_period_errors :
  common_period []
  = ([], Raise (ValueError "zero-size array to reduction operation maximum which has no identity"))
  /\
  forall dfs, Exists (fun df => index df = []) dfs ->
              common_period dfs = (dfs, Raise IndexError).
Proof.
  split; [reflexivity |]. intros dfs H.
  unfold common_period. rewrite bind_run. unfold get. cbn beta iota.
  rewrite bind_run. unfold lift at 1. rewrite (comprehension_first_stamp_empty dfs H).
  reflexivity.
Qed.

Lemma common_period_errors_witness :
  common_period [table_2010_2015; table_without_rows]
  = ([table_2010_2015; table_without_rows], Raise IndexError).
Proof.
  apply (proj2 common_period_errors [table_2010_2015; table_without_rows]).
  right. left. reflexivity.
Defined.

(** X16.  [common_period] does not notice tables that do not overlap:
    when one of the tables ends before another one starts, the call still
    returns, and the start it returns lies after the end it returns. *)
Theorem common_period_disjoint (dfs : list DataFrame) (df1 df2 : DataFrame) (a b : Z) :
  Forall (fun df => index df <> []) dfs ->
  In df1 dfs -> In df2 dfs ->
  last (index df1) = Some a ->
  head (index df2) = Some b ->
  (a < b)%Z ->
  exists s e, common_period dfs = (dfs, Ok (s, e)) /\ (e < s)%Z.
Proof.
  intros Hrows H1 H2 Ha Hb Hab.
  assert (Hfirst : Forall (fun df => exists d, first_stamp df = Ok d) dfs).
  { eapply Forall_impl; [exact Hrows |]. intros df H. cbn beta in H. unfold first_stamp.
    destruct (index df) as [|d ?]; [congruence | eauto]. }
  assert (Hlast : Forall (fun df => exists d, last_stamp df = Ok d) dfs).
  { eapply Forall_impl; [exact Hrows |]. intros df H. cbn beta in H. unfold last_stamp.
    destruct (last (index df)) as [d|] eqn:E; [eauto |].
    apply last_None in E. congruence. }
  destruct (comprehension_total _ _ Hfirst) as (starts & Hs & Fs).
  destruct (comprehension_total _ _ Hlast) as (ends & He & Fe).
  destruct (Forall2_In_l _ _ _ _ Fs H2) as (b' & Hb' & Hsb).
  destruct (Forall2_In_l _ _ _ _ Fe H1) as (a' & Ha' & Hea).
  assert (b' = b).
  { unfold first_stamp in Hsb. destruct (index df2); [discriminate |].
    cbn in Hb. congruence. }
  assert (a' = a).
  { unfold last_stamp in Hea. rewrite Ha in Hea. congruence. }
  subst a' b'.
  destruct starts as [|s0 starts']; [destruct Hb' |].
  destruct ends as [|e0 ends']; [destruct Ha' |].
  exists (fold_left Z.max starts' s0), (fold_left Z.min ends' e0). split.
  - unfold common_period, mbind, M_bind, get, lift. rewrite Hs, He. reflexivity.
  - pose proof (proj2 (fold_left_max_spec starts' s0) b Hb').
    pose proof (proj2 (fold_left_min_spec ends' e0) a Ha'). lia.
Qed.

Lemma common_period_disjoint_witness :
  exists s e,
    common_period [table_2010_2011; table_2012_2016]
    = ([table_2010_2011; table_2012_2016], Ok (s, e)) /\ (e < s)%Z.
Proof.
  apply (common_period_disjoint [table_2010_2011; table_2012_2016]
           table_2010_2011 table_2012_2016
           (days_from_civil 2011 1 1) (days_from_civil 2012 1 1)).
  - repeat constructor; vm_compute; discriminate.
  - left. reflexivity.
  - right. left. reflexivity.
  - reflexivity.
  - vm_compute. reflexivity.
  - vm_compute. reflexivity.
Defined.

(** ** The result of the intraday loader *)

Lemma load_all_intraday_NoDup G fs interval tickers :
  forall df_dict, NoDup df_dict.*1 ->
                  NoDup (load_all_intraday G fs tickers interval df_dict).*1.
Proof.
  induction tickers as [|t ts IH]; intros acc Hnd; [exact Hnd |].
  cbn [load_all_intraday]. destruct (load_one_intraday G fs t interval).
  - apply IH, dict_set_NoDup, Hnd.
  - apply IH, Hnd.
Qed.

(** X17.  Best effort of [load_shareprices_intraday], under any binding of
    the module's names: if the [try] block runs to its end for at least
    one of the tickers, the call returns one block for each ticker for
    which it did and none for the others, each ticker at most once even
    when it is listed twice; if it does for none, in particular for an
    empty list, the call raises ValueError. *)
Theorem load_shareprices_intraday_result
        (G : gmap string string) (fs : gmap string file)
        (tickers : tickers_arg) (interval : string) :
  ((exists t, In t (as_list tickers) /\ is_raise (load_one_intraday G fs t interval) = false) ->
   exists blocks,
     load_shareprices_intraday G fs tickers interval = Ok blocks /\
     NoDup blocks.*1 /\
     forall t df,
       In (t, df) blocks
       <-> In t (as_list tickers) /\ load_one_intraday G fs t interval = Ok df) /\
  ((forall t, In t (as_list tickers) -> is_raise (load_one_intraday G fs t interval) = true) ->
   load_shareprices_intraday G fs tickers interval
   = Raise (ValueError "No objects to concatenate")).
Proof.
  destruct (load_shareprices_intraday_best_effort G fs tickers interval) as [Hsome Hnone].
  split; [| exact Hnone].
  intros Hex. destruct (Hsome Hex) as (blocks & Hb & Hiff).
  exists blocks. split; [exact Hb |]. split; [| exact Hiff].
  unfold load_shareprices_intraday, concat_rows in Hb.
  pose proof (load_all_intraday_NoDup G fs interval (as_list tickers) [] (NoDup_nil_2)) as Hnd.
  destruct (load_all_intraday G fs (as_list tickers) interval []); [discriminate |].
  injection Hb as <-. exact Hnd.
Qed.

Lemma load_shareprices_intraday_result_witness :
  (exists blocks,
      load_shareprices_intraday completed_keys wmt_files (Several ["WMT"; "XOM"; "WMT"]) "5min"
      = Ok blocks /\
      NoDup blocks.*1 /\
      forall t df,
        In (t, df) blocks
        <-> In t ["WMT"; "XOM"; "WMT"]
            /\ load_one_intraday completed_keys wmt_files t "5min" = Ok df) /\
  load_shareprices_intraday data_keys wmt_files (Several ["WMT"; "XOM"]) "5min"
  = Raise (ValueError "No objects to concatenate").
Proof.
  split.
  - apply (proj1 (load_shareprices_intraday_result completed_keys wmt_files
                    (Several ["WMT"; "XOM"; "WMT"]) "5min")).
    exists "WMT". split; [left; reflexivity | vm_compute; reflexivity].
  - apply (proj2 (load_shareprices_intraday_result data_keys wmt_files
                    (Several ["WMT"; "XOM"]) "5min")).
    intros t _. apply load_one_intraday_data_keys.
Defined.

(** ** The columns the enrichers compute, with their names bound *)











(** ** Enrichers called without the column they need *)



Lemma getitem_setitem_present df k col k' c :
  getitem df k' = Ok c -> exists c', getitem (setitem df k col) k' = Ok c'.
Proof.
  intros H. destruct (decide (k' = k)) as [->|Hne].
  - exists col. apply getitem_setitem_same.
  - exists c. rewrite getitem_setitem_other by exact Hne. exact H.
Qed.

(** X21.  The earnings enricher does not check for the sales column that
    the profit margin needs: if the call without the profit margin
    returns a table that has no sales column, the call with the profit
    margin leaves that same table, earnings and P/E columns included, and
    raises KeyError for the sales label. *)
Theorem earnings_enricher_without_sales
        (G : gmap string string) (fs : gmap string file) (ticker : string)
        (df df1 : DataFrame) (sps : string) :
  G !! "SALES_PER_SHARE" = Some sps ->
  _load_earnings_per_share G fs ticker false df = (df1, Ok tt) ->
  getitem df1 sps = Raise (KeyError sps) ->
  _load_earnings_per_share G fs ticker true df = (df1, Raise (KeyError sps)).
Proof.
  intros Hsps H Hmiss. unfold _load_earnings_per_share in *.
  apply bind_returns in H. destruct H as (s1 & loaded & H1 & H).
  rewrite bind_run, H1.
  apply bind_returns in H. destruct H as (s2 & [] & H2 & H).
  rewrite bind_run, H2.
  apply bind_returns in H. destruct H as (s3 & [] & H3 & H).
  rewrite bind_run, H3.
  cbn [when] in H. unfold mret, M_ret in H. injection H as ->.
  cbn [when].
  assert (Heps : exists eps, G !! "EARNINGS_PER_SHARE" = Some eps).
  { unfold assign_daily in H2. apply bind_returns in H2. destruct H2 as (? & ? & _ & H2).
    apply bind_returns in H2. destruct H2 as (? & kt & H2 & _).
    apply lift_returns in H2. destruct H2 as [_ H2]. unfold global in H2.
    destruct (G !! "EARNINGS_PER_SHARE") as [eps|]; [eauto | discriminate]. }
  destruct Heps as [eps Heps].
  assert (Hcol : exists e, getitem df1 eps = Ok e).
  { unfold assign_ratio in H3.
    apply bind_returns in H3. destruct H3 as (x1 & kn & E1 & H3).
    apply lift_returns in E1. destruct E1 as [-> _].
    apply bind_returns in H3. destruct H3 as (x2 & a & E2 & H3).
    unfold column in E2. injection E2 as <- _.
    apply bind_returns in H3. destruct H3 as (x3 & kd & E3 & H3).
    apply lift_returns in E3. destruct E3 as [-> E3]. apply (global_returns _ _ _ _ Heps) in E3.
    subst kd.
    apply bind_returns in H3. destruct H3 as (x4 & b & E4 & H3).
    unfold column in E4. injection E4 as <- Hb.
    apply bind_returns in H3. destruct H3 as (x5 & kt & E5 & H3).
    apply lift_returns in E5. destruct E5 as [-> _].
    unfold assign in H3. injection H3 as <-.
    eapply getitem_setitem_present. exact Hb. }
  destruct Hcol as [e He].
  unfold assign_ratio. rewrite bind_run. unfold lift at 1, global at 1. rewrite Heps.
  cbn beta iota. rewrite bind_run. unfold column at 1. rewrite He. cbn beta iota.
  rewrite bind_run. unfold lift at 1, global at 1. rewrite Hsps. cbn beta iota.
  rewrite bind_run. unfold column at 1. rewrite Hmiss. reflexivity.
Qed.

Lemma earnings_enricher_without_sales_witness :
  _load_earnings_per_share completed_keys wmt_files "WMT" true seeded
  = ((_load_earnings_per_share completed_keys wmt_files "WMT" false seeded).1,
     Raise (KeyError "Sales Per Share")).
Proof.
  apply (earnings_enricher_without_sales completed_keys wmt_files "WMT" seeded
           (_load_earnings_per_share completed_keys wmt_files "WMT" false seeded).1
           "Sales Per Share");
    vm_compute; reflexivity.
Defined.

(** ** The price loader and the stock assembler, with their names bound *)

Lemma filter_relabelled_some (g : string -> string) source target
      (cols : list (string * list value)) :
  In source cols.*1 -> g source = target ->
  exists x xs,
    List.filter (fun kc => bool_decide (kc.1 = target))
                (List.map (fun kc => (g kc.1, kc.2)) cols) = x :: xs.
Proof.
  induction cols as [|[l c] cols IH]; [intros [] |]. intros Hin Hg.
  cbn [List.map List.filter fst snd]. case_bool_decide as E; [eauto |].
  apply IH; [| exact Hg]. destruct Hin as [H|H]; [| exact H]. cbn in H. subst l. contradiction.
Qed.

(** X22.  A price file without a 'Close' column is refused: with the two
    keys bound to different labels, on a file that has an 'Adj Close'
    column but no column named 'Close' or named by the share-price
    label, the price loader raises KeyError for the share-price label
    instead of returning a table with NaN prices. *)
Theorem price_loader_missing_close
        (G : gmap string string) (fs : gmap string file) (ticker : string)
        (raw : DataFrame) (tr sp : string) :
  G !! "TOTAL_RETURN" = Some tr ->
  G !! "SHARE_PRICE" = Some sp ->
  tr <> sp ->
  read_csv fs (data_file ticker " Share-Price (Yahoo).csv") = Ok raw ->
  In "Adj Close" (labels raw) ->
  ~ In "Close" (labels raw) ->
  ~ In sp (labels raw) ->
  _load_price_yahoo G fs ticker = Raise (KeyError sp).
Proof.
  intros Htr Hsp Hne Hread Hadj Hclose Hspl.
  unfold _load_price_yahoo. fold (data_file ticker " Share-Price (Yahoo).csv").
  rewrite Hread. unfold global. rewrite Htr, Hsp. cbn [mbind result_bind].
  unfold select. rewrite rename_columns. cbn [select_columns].
  destruct (filter_relabelled_some (renamed_label [("Adj Close", tr); ("Close", sp)])
              "Adj Close" tr (columns raw) Hadj eq_refl) as (x & xs & ->).
  rewrite filter_relabelled_none; [reflexivity |].
  intros l Hl. unfold renamed_label. cbn [List.find fst snd].
  destruct (decide (l = "Adj Close")) as [->|H1].
  - rewrite bool_decide_eq_true_2 by reflexivity. exact Hne.
  - rewrite bool_decide_eq_false_2 by congruence.
    rewrite bool_decide_eq_false_2 by (intros <-; apply Hclose, Hl).
    intros ->. apply Hspl, Hl.
Qed.

Lemma price_loader_missing_close_witness :
  _load_price_yahoo completed_keys more_wmt_files "XOM" = Raise (KeyError "Share-price").
Proof.
  apply (price_loader_missing_close completed_keys more_wmt_files "XOM"
           wmt_prices_without_close "Total Return" "Share-price").
  - vm_compute. reflexivity.
  - vm_compute. reflexivity.
  - discriminate.
  - vm_compute. reflexivity.
  - cbn. tauto.
  - cbn. intros [H|[H|[]]]; discriminate H.
  - cbn. intros [H|[H|[]]]; discriminate H.
Defined.

(** X23.  The columns of the price table: with the two keys bound to
    different labels that no other column of the file carries, and the
    stamps of the file distinct, the price loader returns a table whose
    columns are exactly the file's 'Adj Close' under the total-return
    label and the file's 'Close' under the share-price label, in this
    order, and every price the file holds stands at its stamp. *)
Theorem price_loader_two_columns
        (G : gmap string string) (fs : gmap string file) (ticker : string)
        (raw : DataFrame) (tr sp : string) (adj close : list value) :
  G !! "TOTAL_RETURN" = Some tr ->
  G !! "SHARE_PRICE" = Some sp ->
  tr <> sp ->
  read_csv fs (data_file ticker " Share-Price (Yahoo).csv") = Ok raw ->
  NoDup (labels raw) ->
  NoDup (index raw) ->
  getitem raw "Adj Close" = Ok adj ->
  getitem raw "Close" = Ok close ->
  (forall l, In l (labels raw) -> l <> "Adj Close" -> l <> "Close" -> l <> tr /\ l <> sp) ->
  exists out,
    _load_price_yahoo G fs ticker = Ok out /\
    labels out = [tr; sp] /\
    forall d q,
      at_stamp (index raw) close d = Some q ->
      exists prices, columns out !! 1%nat = Some (sp, prices) /\
                     at_stamp (index out) prices d = Some q.
Proof.
  intros Htr Hsp Hne Hread Hlab Hidx Hadj Hclose Hother.
  rewrite (load_price_yahoo_columns G fs ticker raw tr sp adj close
             Htr Hsp Hne Hread Hlab Hadj Hclose Hother).
  set (two := {| index := index raw; columns := [(tr, adj); (sp, close)] |}).
  destruct (_resample_daily two) as [out|e] eqn:E.
  - exists out. split; [reflexivity |]. split; [apply (resample_daily_labels _ _ E) |].
    intros d q Hq.
    apply (resample_daily_known two out 1 sp close d q E eq_refl Hq).
  - exfalso. unfold _resample_daily, two in E. cbn [index] in E.
    destruct (index raw); [discriminate |].
    rewrite bool_decide_eq_true_2 in E by exact Hidx. discriminate.
Qed.

Lemma price_loader_two_columns_witness :
  exists out,
    _load_price_yahoo completed_keys wmt_files "WMT" = Ok out /\
    labels out = ["Total Return"; "Share-price"] /\
    forall d q,
      at_stamp (index wmt_prices) [Some 10%Q; Some 11%Q; Some 12%Q; Some 12%Q] d = Some q ->
      exists prices, columns out !! 1%nat = Some ("Share-price", prices) /\
                     at_stamp (index out) prices d = Some q.
Proof.
  apply (price_loader_two_columns completed_keys wmt_files "WMT" wmt_prices
           "Total Return" "Share-price"
           [Some 9%Q; Some 10%Q; Some 11%Q; Some 11%Q]
           [Some 10%Q; Some 11%Q; Some 12%Q; Some 12%Q]).
  - vm_compute. reflexivity.
  - vm_compute. reflexivity.
  - discriminate.
  - vm_compute. reflexivity.
  - apply (bool_decide_unpack _). vm_compute. exact I.
  - apply (bool_decide_unpack _). vm_compute. exact I.
  - reflexivity.
  - reflexivity.
  - cbn. intros l [<-|[<-|[<-|[]]]] H1 H2; try congruence. split; discriminate.
Defined.

(** X24.  The profit margin of the stock assembler: with the keys bound
    to labels that the later enrichers do not assign, a table that
    [load_stock_data] returns for [sales=True, earnings=True] has a
    profit-margin column equal, cell by cell, to its earnings column
    divided by its sales column. *)
Theorem stock_data_profit_margin
        (G : gmap string string) (fs : gmap string file) (ticker : string)
        (book_value dividend_TTM : bool) (pm eps sps : string) (df : DataFrame) :
  G !! "PROFIT_MARGIN" = Some pm ->
  G !! "EARNINGS_PER_SHARE" = Some eps ->
  G !! "SALES_PER_SHARE" = Some sps ->
  pm <> eps -> pm <> sps ->
  (forall k, In k [pm; eps; sps] -> ~ bound_to G book_value_keys k) ->
  (forall k, In k [pm; eps; sps] -> ~ bound_to G dividend_keys k) ->
  load_stock_data G fs ticker true true book_value dividend_TTM = Ok df ->
  exists e s,
    getitem df eps = Ok e /\ getitem df sps = Ok s /\ getitem df pm = Ok (div_columns e s).
Proof. apply load_stock_data_profit_margin. Qed.

Lemma stock_data_profit_margin_witness :
  exists df e s,
    load_stock_data completed_keys wmt_files "WMT" true true true false = Ok df /\
    getitem df "Earnings Per Share" = Ok e /\
    getitem df "Sales Per Share" = Ok s /\
    getitem df "Profit Margin" = Ok (div_columns e s).
Proof.
  destruct (load_stock_data completed_keys wmt_files "WMT" true true true false)
    as [df|] eqn:E; [| vm_compute in E; discriminate].
  destruct (stock_data_profit_margin completed_keys wmt_files "WMT" true false
              "Profit Margin" "Earnings Per Share" "Sales Per Share" df)
    as (e & s & H1 & H2 & H3).
  - vm_compute. reflexivity.
  - vm_compute. reflexivity.
  - vm_compute. reflexivity.
  - discriminate.
  - discriminate.
  - intros k [<-|[<-|[<-|[]]]] (name & [<-|[<-|[]]] & H); vm_compute in H; discriminate H.
  - intros k [<-|[<-|[<-|[]]]] (name & [<-|[<-|[<-|[]]]] & H); vm_compute in H; discriminate H.
  - exact E.
  - exists df, e, s. repeat split; assumption.
Defined.






(** ** The report of a download *)




(** ** The enrichers on the registry of the repository *)

(** X27.  On the registry that [data_keys.py] gives the module, each of
    the four enrichers, for every table, ticker and file system, ends in
    an exception and leaves the table exactly as it was given: none of
    the keys it assigns is bound, and the first of them is evaluated
    before anything is written. *)
Theorem enrichers_raise_on_registry
        (fs : gmap string file) (ticker : string) (df : DataFrame) (profit_margin : bool) :
  ((_load_sales_per_share data_keys fs ticker df).1 = df /\
   is_raise (_load_sales_per_share data_keys fs ticker df).2 = true) /\
  ((_load_book_value_per_share data_keys fs ticker df).1 = df /\
   is_raise (_load_book_value_per_share data_keys fs ticker df).2 = true) /\
  ((_load_dividend_TTM data_keys fs ticker df).1 = df /\
   is_raise (_load_dividend_TTM data_keys fs ticker df).2 = true) /\
  ((_load_earnings_per_share data_keys fs ticker profit_margin df).1 = df /\
   is_raise (_load_earnings_per_share data_keys fs ticker profit_margin df).2 = true).
Proof. apply enrichers_leave_table. Qed.
